(** * The career-guide request handler (api/gemini.py)

    A shallow embedding of the HTTP handler of api/gemini.py: the POST
    endpoint /api/submit-assessment, the GET endpoints /api/health and
    /api/download-report/<filename>, and the three Google Drive helpers
    the handler calls.

    Python values are embedded as the JSON-shaped values the handler
    receives from [json.loads] and from its collaborators.  Collaborators
    (the scorer, the goal extractor, the narrative generator, the report
    builder, the PDF renderer, the Drive client) are not part of the file:
    a [world] fixes what each of their calls answers during one request,
    and every call is recorded in a trace.  Calls to [logger] change
    neither the control flow nor the response and are left out. *)

From Stdlib Require Import List String Ascii NArith ZArith Bool Lia Floats.
Import ListNotations.

Set Implicit Arguments.
Set Warnings "-register-all".

(* ------------------------------------------------------------------ *)
(** * Python strings *)

(** A Python [str] is a sequence of Unicode code points. *)
Definition str := list N.

(** [u "..."] is the [str] of an ASCII literal of the source. *)
Definition u (s : string) : str :=
  map N_of_ascii (list_ascii_of_string s).
Arguments u s%_string.

Fixpoint str_eqb (a b : str) : bool :=
  match a, b with
  | [], [] => true
  | x :: a', y :: b' => N.eqb x y && str_eqb a' b'
  | _, _ => false
  end.

(** [s.startswith(p)] *)
Fixpoint startswith (s p : str) {struct p} : bool :=
  match p, s with
  | [], _ => true
  | x :: p', y :: s' => N.eqb x y && startswith s' p'
  | _ :: _, [] => false
  end.

(** [needle in hay] on two strings: [needle] occurs as a substring. *)
Fixpoint str_contains (hay needle : str) : bool :=
  startswith hay needle ||
  match hay with
  | [] => false
  | _ :: hay' => str_contains hay' needle
  end.

(** [c.isspace()], the characters [str.strip()] removes. *)
Definition isspace (c : N) : bool :=
  ((9 <=? c) && (c <=? 13) || (28 <=? c) && (c <=? 32)
   || (c =? 133) || (c =? 160) || (c =? 5760)
   || (8192 <=? c) && (c <=? 8202)
   || (c =? 8232) || (c =? 8233) || (c =? 8239) || (c =? 8287)
   || (c =? 12288))%N.

Fixpoint lstrip (s : str) : str :=
  match s with
  | c :: s' => if isspace c then lstrip s' else s
  | [] => []
  end.

Definition rstrip (s : str) : str := rev (lstrip (rev s)).

(** [s.strip()] *)
Definition strip (s : str) : str := rstrip (lstrip s).

(** [s.replace(old, new)] for single characters [old] and [new]. *)
Definition replace_char (old new : N) (s : str) : str :=
  map (fun c => if N.eqb c old then new else c) s.

Definition ascii_lower (c : N) : N :=
  if ((65 <=? c) && (c <=? 90))%N then (c + 32)%N else c.

(** Header names are compared without regard to ASCII case. *)
Definition header_name_eqb (a b : str) : bool :=
  str_eqb (map ascii_lower a) (map ascii_lower b).

(* ------------------------------------------------------------------ *)
(** * Python values and exceptions *)

Inductive pyval : Type :=
| PyNone
| PyBool (b : bool)
| PyInt (n : Z)
| PyFloat (x : float)
| PyStr (s : str)
| PyList (items : list pyval)
| PyDict (entries : list (str * pyval)).

Inductive exn_class : Type :=
| JSONDecodeError
| TypeError
| AttributeError
| KeyError
| IndexError
| OtherException (name : str).

(** An exception: its class, and [str(e)]. *)
Record exn : Type := Exn { exn_class_of : exn_class; exn_str : str }.

Definition is_json_decode_error (e : exn) : bool :=
  match exn_class_of e with
  | JSONDecodeError => true
  | _ => false
  end.

Definition type_name (v : pyval) : str :=
  match v with
  | PyNone => u "NoneType"
  | PyBool _ => u "bool"
  | PyInt _ => u "int"
  | PyFloat _ => u "float"
  | PyStr _ => u "str"
  | PyList _ => u "list"
  | PyDict _ => u "dict"
  end.

(** [bool(v)] *)
Definition truthy (v : pyval) : bool :=
  match v with
  | PyNone => false
  | PyBool b => b
  | PyInt n => negb (Z.eqb n 0)
  | PyFloat x => negb (PrimFloat.eqb x 0%float)
  | PyStr s => match s with [] => false | _ => true end
  | PyList l => match l with [] => false | _ => true end
  | PyDict d => match d with [] => false | _ => true end
  end.

(** [isinstance(v, dict)] *)
Definition isinstance_dict (v : pyval) : bool :=
  match v with
  | PyDict _ => true
  | _ => false
  end.

(** Lookup in the entries of a dict.  [json.loads] builds dicts with no
    repeated key; the first binding of a key is the one found. *)
Fixpoint lookup (key : str) (d : list (str * pyval)) : option pyval :=
  match d with
  | [] => None
  | (k, v) :: d' => if str_eqb k key then Some v else lookup key d'
  end.

(** [list(d.values())], in insertion order. *)
Definition dict_values (d : list (str * pyval)) : list pyval := map snd d.

Definition is_str (key : str) (v : pyval) : bool :=
  match v with
  | PyStr s => str_eqb s key
  | _ => false
  end.

Definition not_iterable (v : pyval) : exn :=
  Exn TypeError
      (u "argument of type '" ++ type_name v ++ u "' is not iterable").

Definition no_attribute (v : pyval) (attr : str) : exn :=
  Exn AttributeError
      (u "'" ++ type_name v ++ u "' object has no attribute '" ++ attr ++ u "'").

(** [key in v] for a string [key]. *)
Definition contains (key : str) (v : pyval) : exn + bool :=
  match v with
  | PyDict d => inr (match lookup key d with Some _ => true | None => false end)
  | PyList l => inr (existsb (is_str key) l)
  | PyStr s => inr (str_contains s key)
  | _ => inl (not_iterable v)
  end.

(** [v[key]] for a string [key]. *)
Definition getitem (v : pyval) (key : str) : exn + pyval :=
  match v with
  | PyDict d =>
      match lookup key d with
      | Some x => inr x
      | None => inl (Exn KeyError (u "'" ++ key ++ u "'"))
      end
  | PyList _ =>
      inl (Exn TypeError (u "list indices must be integers or slices, not str"))
  | PyStr _ =>
      inl (Exn TypeError (u "string indices must be integers, not 'str'"))
  | _ =>
      inl (Exn TypeError (u "'" ++ type_name v ++ u "' object is not subscriptable"))
  end.

(** [v[0]] *)
Definition getitem0 (v : pyval) : exn + pyval :=
  match v with
  | PyList (x :: _) => inr x
  | PyList [] => inl (Exn IndexError (u "list index out of range"))
  | PyStr (c :: _) => inr (PyStr [c])
  | PyStr [] => inl (Exn IndexError (u "string index out of range"))
  | PyDict d => inl (Exn KeyError (u "0"))
  | _ =>
      inl (Exn TypeError (u "'" ++ type_name v ++ u "' object is not subscriptable"))
  end.

(** [v.get(key, default)] *)
Definition get (v : pyval) (key : str) (default : pyval) : exn + pyval :=
  match v with
  | PyDict d =>
      inr (match lookup key d with Some x => x | None => default end)
  | _ => inl (no_attribute v (u "get"))
  end.

(** [v.strip()] *)
Definition strip_method (v : pyval) : exn + str :=
  match v with
  | PyStr s => inr (strip s)
  | _ => inl (no_attribute v (u "strip"))
  end.

(* ------------------------------------------------------------------ *)
(** * Requests, responses and collaborators *)

Definition bytes := list Byte.byte.

(** A Python object the handler only passes on (credentials, the Drive
    client, a media request). *)
Definition object := N.

(** An incoming request as [BaseHTTPRequestHandler] presents it.  [body]
    is the outcome of lines 165-167 of [do_POST]: the value [json.loads]
    returns for the bytes read from [rfile], or the exception raised on
    the way (by [int] on the Content-Length header, by [decode], or
    [JSONDecodeError] by [json.loads]). *)
Record request : Type := Request {
  path : str;
  headers : list (str * str);
  body : exn + pyval
}.

(** [self.headers.get(name)] *)
Fixpoint headers_get (hs : list (str * str)) (name : str) : option str :=
  match hs with
  | [] => None
  | (k, v) :: hs' => if header_name_eqb k name then Some v else headers_get hs' name
  end.

(** What [wfile.write] receives: [json.dumps(v).encode()] is kept as the
    value [v] it serialises; [ErrorPage] is the HTML page of the base
    class's [send_error]. *)
Inductive payload : Type :=
| Json (v : pyval)
| Raw (b : bytes)
| ErrorPage (message : str).

(** What the handler puts on the connection.  [Response code hs p]: the
    status of [send_response], the headers added with [send_header],
    and the payload written after [end_headers].  [Interrupted code hs
    next]: after [send_response(code)] and the headers [hs] a
    [send_header] raised, and the [except] clause went on to send [next]
    into the same buffer; the client reads the first status line. *)
Inductive response : Type :=
| Response (code : Z) (sent_headers : list (str * str)) (content : payload)
| Interrupted (code : Z) (sent_headers : list (str * str)) (next : response).

(** The status the client reads. *)
Definition status (r : response) : Z :=
  match r with
  | Response code _ _ => code
  | Interrupted code _ _ => code
  end.

(** The calls a request makes outside this file. *)
Inductive event : Type :=
| CalculateScores (answers : pyval)
| ExtractCareerGoal (values : list pyval)
| GenerateTopicReports (context : str) (career_goal : pyval) (name : pyval)
| BuildReportData (name : pyval) (career_goal : pyval) (sections : pyval)
| GeneratePdfReport (report_data : pyval)
| Getenv (name : str)
| ServiceAccountCredentials (info : pyval)
| DriveBuild (credentials : object)
| DriveFilesCreate (metadata : pyval) (media : bytes)
| DrivePermissionsCreate (file_id : pyval)
| DriveFilesList (q : str)
| DriveGetMedia (file_id : pyval)
| DriveNextChunk (k : nat).

Definition trace := list event.

(** What the interpreter's library and the collaborators answer during
    one request.  Each collaborator is called at most once per request
    with given arguments, so a function of the arguments describes every
    run; [next_chunk d k] is the answer to the [k]-th call on downloader
    [d].  The values exchanged are JSON-shaped, so [json.dumps] answers
    for each of them.  [latin1_error s] is [str(e)] of the
    [UnicodeEncodeError] raised by [s.encode('latin-1')]. *)
Record world : Type := World {
  json_dumps : pyval -> str;
  repr : pyval -> str;
  latin1_error : str -> str;
  json_loads : str -> exn + pyval;
  unquote : str -> str;
  getenv : str -> option str;
  calculate_scores : pyval -> exn + pyval;
  extract_career_goal : list pyval -> exn + pyval;
  generate_topic_reports : str -> pyval -> pyval -> exn + pyval;
  build_report_data : pyval -> pyval -> pyval -> exn + pyval;
  generate_pdf_report : pyval -> exn + bytes;
  from_service_account_info : pyval -> exn + object;
  build_drive : object -> exn + object;
  files_create : object -> pyval -> bytes -> exn + pyval;
  permissions_create : object -> pyval -> exn + unit;
  files_list : object -> str -> exn + pyval;
  get_media : object -> pyval -> exn + object;
  next_chunk : object -> nat -> exn + (bytes * bool)
}.

(** [str(v)] *)
Definition py_str (w : world) (v : pyval) : str :=
  match v with
  | PyStr s => s
  | _ => repr w v
  end.

(* ------------------------------------------------------------------ *)
(** * Computations that may raise, with the calls they make *)

Definition M (A : Type) : Type := ((exn + A) * trace)%type.

Definition ret {A} (a : A) : M A := (inr a, []).

Definition bind {A B} (m : M A) (f : A -> M B) : M B :=
  match m with
  | (inl e, t) => (inl e, t)
  | (inr a, t) => let (r, t') := f a in (r, t ++ t')
  end.

(** A pure operation of the interpreter, which may raise. *)
Definition lift {A} (r : exn + A) : M A := (r, []).

(** A call outside the file and its answer. *)
Definition call {A} (ev : event) (r : exn + A) : M A := (r, [ev]).

(** A helper of this file that catches its own exceptions. *)
Definition total {A} (x : A * trace) : M A := (inr (fst x), snd x).

(** [try: m  except Exception: h] for a helper that returns [h]. *)
Definition catch_all {A} (m : M A) (h : A) : A * trace :=
  match m with
  | (inl _, t) => (h, t)
  | (inr a, t) => (a, t)
  end.

Notation "x <- m ;; k" := (bind m (fun x => k))
  (at level 61, m at next level, right associativity).

(* ------------------------------------------------------------------ *)
(** * Regular expressions of the handler *)

(** The fragment of [re] patterns the handler uses: literal characters
    and the greedy capturing group of any characters (a dot under a
    star, in parentheses). *)
Inductive re_node : Type :=
| ReChar (c : N)
| ReAnyStarGroup.

(** [re.match(p, s)]: the pattern is matched at the start of [s]; the
    result lists the captured groups.  The dot matches every character
    but the newline; the star takes as many characters as the rest of
    the pattern allows, the longest choice first. *)
Fixpoint re_match (p : list re_node) (s : str) : option (list str) :=
  match p with
  | [] => Some []
  | ReChar c :: p' =>
      match s with
      | c' :: s' => if N.eqb c c' then re_match p' s' else None
      | [] => None
      end
  | ReAnyStarGroup :: p' =>
      (fix star (s : str) : option (list str) :=
         let stop := option_map (cons []) (re_match p' s) in
         match s with
         | c :: s' =>
             if N.eqb c 10 then stop
             else match star s' with
                  | Some (g :: gs) => Some ((c :: g) :: gs)
                  | _ => stop
                  end
         | [] => stop
         end) s
  end.

Definition download_prefix : str := u "/api/download-report/".

(** The pattern of line 263: the literal prefix, then the group. *)
Definition download_pattern : list re_node :=
  map ReChar download_prefix ++ [ReAnyStarGroup].

(** [match.group(1)] *)
Definition group1 (groups : list str) : str := nth 0 groups [].

(* ------------------------------------------------------------------ *)
(** * Google Drive helpers (lines 36-151) *)

Definition json_content_type : list (str * str) :=
  [(u "Content-type", u "application/json")].

(** [_send_error(status, message)] *)
Definition send_error (code : Z) (message : str) : response :=
  Response code json_content_type (Json (PyDict [(u "error", PyStr message)])).

(** [setup_google_drive()]: the Drive client, or [None]. *)
Definition setup_google_drive (w : world) : option object * trace :=
  catch_all
    (credentials_json <-
       call (Getenv (u "GOOGLE_DRIVE_CREDENTIALS"))
            (inr (getenv w (u "GOOGLE_DRIVE_CREDENTIALS"))) ;;
     match credentials_json with
     | None | Some [] => ret None
     | Some text =>
         credentials_info <- lift (json_loads w text) ;;
         credentials <-
           call (ServiceAccountCredentials credentials_info)
                (from_service_account_info w credentials_info) ;;
         drive_service <- call (DriveBuild credentials) (build_drive w credentials) ;;
         ret (Some drive_service)
     end)
    None.

(** [upload_to_drive(drive_service, file_content, filename, folder_id)]:
    the dict with the file's id and link, or [None]. *)
Definition upload_to_drive (w : world) (drive_service : object)
    (file_content : bytes) (filename : str) (folder_id : option str)
  : pyval * trace :=
  catch_all
    (let file_metadata :=
       [(u "name", PyStr filename); (u "mimeType", PyStr (u "application/pdf"))]
       ++ match folder_id with
          | None | Some [] => []
          | Some f => [(u "parents", PyList [PyStr f])]
          end in
     file <- call (DriveFilesCreate (PyDict file_metadata) file_content)
                  (files_create w drive_service (PyDict file_metadata) file_content) ;;
     file_id <- lift (get file (u "id") PyNone) ;;
     _ <- call (DrivePermissionsCreate file_id)
               (permissions_create w drive_service file_id) ;;
     id <- lift (get file (u "id") PyNone) ;;
     link <- lift (get file (u "webViewLink") PyNone) ;;
     ret (PyDict [(u "id", id); (u "webViewLink", link)]))
    PyNone.

(** Lines 122-138 of [download_from_drive]: the search by name, and the
    media request and MIME type of the first match; [None] is the early
    [return None, None]. *)
Definition locate_file (w : world) (drive_service : object) (filename : str)
  : M (option (object * pyval)) :=
  let q := u "name='" ++ filename ++ u "' and trashed=false" in
  response <- call (DriveFilesList q) (files_list w drive_service q) ;;
  files <- lift (get response (u "files") (PyList [])) ;;
  if negb (truthy files) then ret None
  else
    first <- lift (getitem0 files) ;;
    file_id <- lift (getitem first (u "id")) ;;
    first <- lift (getitem0 files) ;;
    mime_type <- lift (getitem first (u "mimeType")) ;;
    request <- call (DriveGetMedia file_id) (get_media w drive_service file_id) ;;
    ret (Some (request, mime_type)).

(** Lines 142-144: [while not done: status, done = downloader.next_chunk()].
    [k] chunks have been asked for and [got] is written to the buffer;
    [None] when the loop is still running after [fuel] iterations. *)
Fixpoint next_chunks (w : world) (downloader : object) (fuel k : nat)
    (got : bytes) : option (M bytes) :=
  match fuel with
  | O => None
  | S fuel' =>
      match next_chunk w downloader k with
      | inl e => Some (call (DriveNextChunk k) (inl e))
      | inr (data, done) =>
          if done then Some (call (DriveNextChunk k) (inr (got ++ data)))
          else
            match next_chunks w downloader fuel' (S k) (got ++ data) with
            | Some rest => Some (_ <- call (DriveNextChunk k) (inr tt) ;; rest)
            | None => None
            end
      end
  end.

(** [download_from_drive(drive_service, filename)]: the content and MIME
    type of the file, or [None] for [(None, None)]. *)
Definition download_from_drive (w : world) (fuel : nat)
    (drive_service : object) (filename : str)
  : option (option (bytes * pyval) * trace) :=
  match locate_file w drive_service filename with
  | (inr (Some (request, mime_type)), t) =>
      match next_chunks w request fuel 0 [] with
      | Some chunks =>
          Some (catch_all
                  (_ <- (inr tt, t) ;;
                   file_content <- chunks ;;
                   ret (Some (file_content, mime_type)))
                  None)
      | None => None
      end
  | (_, t) => Some (None, t)
  end.

(* ------------------------------------------------------------------ *)
(** * The handler class (lines 153-309) *)

Definition newline : str := [10%N].
Definition indent : str := u "            ".
Definition double_quote : str := [34%N].

(** The unknown-route response of lines 157-160 and 298-301. *)
Definition route_not_found : response :=
  Response 404 json_content_type
           (Json (PyDict [(u "error", PyStr (u "Route not found"))])).

(** [list(v.values())] *)
Definition values_method (v : pyval) : exn + list pyval :=
  match v with
  | PyDict d => inr (dict_values d)
  | _ => inl (no_attribute v (u "values"))
  end.

(** The [student_info] dict of lines 181-190. *)
Definition student_info_of (w : world) (data : pyval) (student_name : str)
  : M pyval :=
  age <- lift (get data (u "age") (PyStr (u "Not provided"))) ;;
  academic_info <- lift (get data (u "academicInfo") (PyStr (u "Not provided"))) ;;
  interests <- lift (get data (u "interests") (PyStr (u "Not provided"))) ;;
  answers <- lift (get data (u "answers") (PyDict [])) ;;
  question13 <- lift (get answers (u "question13") (PyStr (u "None"))) ;;
  answers <- lift (get data (u "answers") (PyDict [])) ;;
  question30 <- lift (get answers (u "question30") (PyStr (u "None"))) ;;
  ret (PyDict
         [(u "name", PyStr student_name);
          (u "age", PyStr (py_str w age));
          (u "academic_info", PyStr (py_str w academic_info));
          (u "interests", PyStr (py_str w interests));
          (u "achievements",
            PyList [PyStr (py_str w question13); PyStr (py_str w question30)])]).

(** The f-string of lines 198-201. *)
Definition context_of (w : world) (trait_scores student_info : pyval) : str :=
  newline ++ indent ++ u "Trait Scores: " ++ json_dumps w trait_scores
  ++ newline ++ indent ++ u "Student Info: " ++ json_dumps w student_info
  ++ newline ++ indent.

(** [f"{student_name.replace(' ', '_')}_Career_Report.pdf"] *)
Definition pdf_filename_of (student_name : str) : str :=
  replace_char 32 95 student_name ++ u "_Career_Report.pdf".

(** The body of the 200 response of lines 232-239. *)
Definition success_body (report_url file_id : pyval) (pdf_filename student_name : str)
    (career_goal : pyval) : pyval :=
  PyDict
    [(u "message", PyStr (u "Report generated successfully"));
     (u "report_url", report_url);
     (u "file_id", file_id);
     (u "file_name", PyStr pdf_filename);
     (u "student_name", PyStr student_name);
     (u "career_goal", career_goal)].

(** The [try] block of [do_POST], lines 164-239: the response it sends,
    or the exception that leaves it. *)
Definition submit_assessment (w : world) (req : request) : M response :=
  data <- lift (body req) ;;
  missing <-
    (if negb (truthy data) then ret true
     else present <- lift (contains (u "answers") data) ;; ret (negb present)) ;;
  if (missing : bool) then ret (send_error 400 (u "Missing answers data"))
  else
  answers <- lift (getitem data (u "answers")) ;;
  if negb (isinstance_dict answers)
  then ret (send_error 400 (u "Invalid answers format"))
  else
  answers <- lift (getitem data (u "answers")) ;;
  trait_scores <- call (CalculateScores answers) (calculate_scores w answers) ;;
  name_field <- lift (get data (u "studentName") (PyStr (u "Student"))) ;;
  student_name <- lift (strip_method name_field) ;;
  student_info <- student_info_of w data student_name ;;
  answers <- lift (getitem data (u "answers")) ;;
  values <- lift (values_method answers) ;;
  career_goal <- call (ExtractCareerGoal values) (extract_career_goal w values) ;;
  if negb (truthy career_goal)
  then ret (send_error 500 (u "Failed to extract career goal"))
  else
  let context := context_of w trait_scores student_info in
  name <- lift (getitem student_info (u "name")) ;;
  report_sections <-
    call (GenerateTopicReports (strip context) career_goal name)
         (generate_topic_reports w (strip context) career_goal name) ;;
  if negb (truthy report_sections)
  then ret (send_error 500 (u "Failed to generate report sections"))
  else
  name <- lift (getitem student_info (u "name")) ;;
  report_data <-
    call (BuildReportData name career_goal report_sections)
         (build_report_data w name career_goal report_sections) ;;
  let pdf_filename := pdf_filename_of student_name in
  pdf_content <-
    call (GeneratePdfReport report_data) (generate_pdf_report w report_data) ;;
  drive_service <- total (setup_google_drive w) ;;
  match drive_service with
  | None => ret (send_error 500 (u "Failed to initialize Google Drive API"))
  | Some drive_service =>
      folder_id <-
        call (Getenv (u "GOOGLE_DRIVE_FOLDER_ID"))
             (inr (getenv w (u "GOOGLE_DRIVE_FOLDER_ID"))) ;;
      upload_result <-
        total (upload_to_drive w drive_service pdf_content pdf_filename folder_id) ;;
      if negb (truthy upload_result)
      then ret (send_error 500 (u "Failed to upload PDF to Google Drive"))
      else
        report_url <- lift (getitem upload_result (u "webViewLink")) ;;
        file_id <- lift (getitem upload_result (u "id")) ;;
        ret (Response 200 json_content_type
               (Json (success_body report_url file_id pdf_filename
                                   student_name career_goal)))
  end.

(** [do_POST]: the response sent and the calls made. *)
Definition do_POST (w : world) (req : request) : response * trace :=
  if negb (str_eqb (path req) (u "/api/submit-assessment"))
  then (route_not_found, [])
  else
    match submit_assessment w req with
    | (inr sent, t) => (sent, t)
    | (inl e, t) =>
        if is_json_decode_error e
        then (send_error 400 (u "Invalid JSON data"), t)
        else (send_error 500 (u "Assessment processing failed: " ++ exn_str e), t)
    end.

(** The response of lines 250-256. *)
Definition health_response : response :=
  Response 200 json_content_type
    (Json (PyDict [(u "status", PyStr (u "healthy"));
                   (u "message", PyStr (u "Career Guide API is running"))])).

(** [not auth_header or not auth_header.startswith('Bearer ')] *)
Definition unauthorized (auth_header : option str) : bool :=
  match auth_header with
  | None | Some [] => true
  | Some h => negb (startswith h (u "Bearer "))
  end.

(** [s.encode('latin-1')] succeeds. *)
Definition latin1 (s : str) : bool := forallb (fun c => (c <? 256)%N) s.

(** The line [send_header(keyword, value)] encodes. *)
Definition header_line (keyword value : str) : str :=
  keyword ++ u ": " ++ value ++ [13%N; 10%N].

(** Lines 286-295: the 200 response with the file.  [send_header]
    encodes each header as Latin-1; when a value cannot be encoded it
    raises after the status line is buffered, and the [except] clause of
    lines 293-295 sends its 500 after what was buffered. *)
Definition send_file (w : world) (filename : str) (file_content : bytes)
    (mime_type : pyval) : response :=
  let content_type :=
    py_str w (if truthy mime_type then mime_type
              else PyStr (u "application/pdf")) in
  let disposition :=
    u "attachment; filename=" ++ double_quote ++ filename ++ double_quote in
  let failed (line : str) : response :=
    send_error 500 (u "Failed to download file: " ++ latin1_error w line) in
  if negb (latin1 content_type)
  then Interrupted 200 [] (failed (header_line (u "Content-type") content_type))
  else if negb (latin1 disposition)
  then Interrupted 200 [(u "Content-type", content_type)]
         (failed (header_line (u "Content-Disposition") disposition))
  else Response 200
         [(u "Content-type", content_type);
          (u "Content-Disposition", disposition)]
         (Raw file_content).

(** Lines 274-292: the download once the request is authorised. *)
Definition serve_file (w : world) (fuel : nat) (filename : str)
  : option (response * trace) :=
  match setup_google_drive w with
  | (None, t) => Some (send_error 500 (u "Failed to connect to Google Drive"), t)
  | (Some drive_service, t) =>
      match download_from_drive w fuel drive_service filename with
      | None => None
      | Some (None, t') => Some (send_error 404 (u "File not found"), t ++ t')
      | Some (Some (file_content, mime_type), t') =>
          Some (send_file w filename file_content mime_type, t ++ t')
      end
  end.

(** Lines 261-295, the download endpoint.  The helpers it calls catch
    their own exceptions; the one statement of the block that can raise
    is the [send_header] of [send_file], which holds the [except]
    clause of lines 293-295. *)
Definition download_report (w : world) (fuel : nat) (req : request)
  : option (response * trace) :=
  match re_match download_pattern (path req) with
  | None => Some (send_error 400 (u "Invalid file path"), [])
  | Some groups =>
      let filename := unquote w (group1 groups) in
      let auth_header := headers_get (headers req) (u "Authorization") in
      if unauthorized auth_header
      then Some (send_error 401 (u "Authorization required"), [])
      else serve_file w fuel filename
  end.

(** [do_GET]: the response sent and the calls made; [None] when the
    download loop is still running after [fuel] iterations. *)
Definition do_GET (w : world) (fuel : nat) (req : request)
  : option (response * trace) :=
  if str_eqb (path req) (u "/api/health") then Some (health_response, [])
  else if startswith (path req) download_prefix then download_report w fuel req
  else Some (route_not_found, []).

(** The base class's [send_error(501, "Unsupported method (...)")]. *)
Definition unsupported_method (w : world) (command : str) : response :=
  Response 501 [(u "Content-Type", u "text/html;charset=utf-8")]
    (ErrorPage (u "Unsupported method (" ++ repr w (PyStr command) ++ u ")")).

(** How [BaseHTTPRequestHandler.handle_one_request] serves a request with
    method [command] on the class [handler]: it calls the method named
    ['do_' + command], and the class defines [do_POST] and [do_GET] only;
    for any other command the base class answers 501 itself. *)
Definition handle (w : world) (fuel : nat) (command : str) (req : request)
  : option (response * trace) :=
  if str_eqb command (u "POST") then Some (do_POST w req)
  else if str_eqb command (u "GET") then do_GET w fuel req
  else Some (unsupported_method w command, []).

(** The routes of the handler: a method and a path it serves. *)
Definition submit_path : str := u "/api/submit-assessment".

Definition defined_route (command path : str) : bool :=
  str_eqb command (u "POST") && str_eqb path submit_path
  || str_eqb command (u "GET") && str_eqb path (u "/api/health")
  || str_eqb command (u "GET") && startswith path download_prefix.

(** The value a JSON response holds under [key]. *)
Definition field (r : response) (key : str) : option pyval :=
  match r with
  | Response _ _ (Json (PyDict d)) => lookup key d
  | _ => None
  end.

(** A world in which every collaborator answers, used to run the
    handler on concrete requests. *)
Definition stored_file : pyval :=
  PyDict [(u "id", PyStr (u "f1"));
          (u "name", PyStr (u "Asha_Career_Report.pdf"));
          (u "mimeType", PyStr (u "application/pdf"));
          (u "webViewLink", PyStr (u "https://drive.google.com/file/d/f1/view"))].

Definition demo_world : world :=
  {| json_dumps := fun _ => u "{}";
     repr := fun _ => u "...";
     latin1_error := fun _ => u "'latin-1' codec can't encode characters";
     json_loads := fun _ => inr (PyDict [(u "type", PyStr (u "service_account"))]);
     unquote := fun s => s;
     getenv := fun name =>
       if str_eqb name (u "GOOGLE_DRIVE_CREDENTIALS") then Some (u "{}") else None;
     calculate_scores := fun _ => inr (PyDict [(u "Openness", PyInt 7)]);
     extract_career_goal := fun values =>
       inr (match values with v :: _ => v | [] => PyNone end);
     generate_topic_reports := fun _ _ _ =>
       inr (PyDict [(u "Overview", PyStr (u "A career in engineering"))]);
     build_report_data := fun name goal sections =>
       inr (PyDict [(u "student_name", name); (u "career_goal", goal);
                    (u "sections", sections)]);
     generate_pdf_report := fun _ => inr [Byte.x25; Byte.x50; Byte.x44; Byte.x46];
     from_service_account_info := fun _ => inr 1%N;
     build_drive := fun _ => inr 2%N;
     files_create := fun _ _ _ => inr stored_file;
     permissions_create := fun _ _ => inr tt;
     files_list := fun _ _ => inr (PyDict [(u "files", PyList [stored_file])]);
     get_media := fun _ _ => inr 3%N;
     next_chunk := fun _ _ => inr ([Byte.x25; Byte.x50; Byte.x44; Byte.x46], true) |}.

Definition post (data : pyval) : request :=
  Request submit_path [(u "Content-Length", u "64")] (inr data).

Definition asha_submission : pyval :=
  PyDict [(u "answers",
            PyDict [(u "question1", PyStr (u "Software Engineer"));
                    (u "question2", PyStr (u "B"))]);
          (u "studentName", PyStr (u "Asha"))].

(* ------------------------------------------------------------------ *)
(** * Auxiliary definitions of the statements *)

(** The characters of [s] before its first newline. *)
Fixpoint first_line (s : str) : str :=
  match s with
  | c :: s' => if N.eqb c 10 then [] else c :: first_line s'
  | [] => []
  end.

(** [s] begins or ends with a whitespace character. *)
Definition padded (s : str) : bool :=
  match s with
  | [] => false
  | c :: _ => isspace c || isspace (last s c)
  end.

Definition anonymous_submission : pyval :=
  PyDict [(u "answers", PyDict [(u "question1", PyStr (u "Doctor"))])].

Definition blank_goal_submission : pyval :=
  PyDict [(u "answers", PyDict [(u "question1", PyStr [])])].

Definition bare_download_request : request :=
  Request download_prefix [] (inl (Exn TypeError [])).

(** The downloader's [j]-th chunk ends the loop of lines 143-144: it is
    the last one, or the call raises. *)
Definition ends_at (w : world) (downloader : object) (j : nat) : Prop :=
  match next_chunk w downloader j with
  | inl _ => True
  | inr (_, done) => done = true
  end.

(** [m] with the calls [t] made before it. *)
Definition after {A} (t : trace) (m : M A) : M A := (fst m, t ++ snd m).

(* ------------------------------------------------------------------ *)
(** * Further definitions of the statements *)

(** [d.get(key, default)] on the entries of a dict. *)
Definition lookup_default (key : str) (d : list (str * pyval)) (default : pyval)
  : pyval :=
  match lookup key d with
  | Some x => x
  | None => default
  end.

Definition credentials_env : str := u "GOOGLE_DRIVE_CREDENTIALS".
Definition folder_env : str := u "GOOGLE_DRIVE_FOLDER_ID".

(** The [file_metadata] of lines 72-79. *)
Definition file_metadata_of (filename : str) (folder_id : option str)
  : list (str * pyval) :=
  [(u "name", PyStr filename); (u "mimeType", PyStr (u "application/pdf"))]
  ++ match folder_id with
     | None | Some [] => []
     | Some f => [(u "parents", PyList [PyStr f])]
     end.

(** The dict [upload_to_drive] returns for the answer [file] of the
    create call (lines 101-104). *)
Definition upload_result_of (file : list (str * pyval)) : pyval :=
  PyDict [(u "id", lookup_default (u "id") file PyNone);
          (u "webViewLink", lookup_default (u "webViewLink") file PyNone)].

(** The search query of line 123. *)
Definition download_query (filename : str) : str :=
  u "name='" ++ filename ++ u "' and trashed=false".

(** The [student_info] of lines 181-190 for an object [d] whose answers
    are [a]. *)
Definition student_info_dict (w : world) (d a : list (str * pyval))
    (student_name : str) : pyval :=
  PyDict
    [(u "name", PyStr student_name);
     (u "age",
       PyStr (py_str w (lookup_default (u "age") d (PyStr (u "Not provided")))));
     (u "academic_info",
       PyStr (py_str w (lookup_default (u "academicInfo") d
                          (PyStr (u "Not provided")))));
     (u "interests",
       PyStr (py_str w (lookup_default (u "interests") d
                          (PyStr (u "Not provided")))));
     (u "achievements",
       PyList
         [PyStr (py_str w (lookup_default (u "question13") a (PyStr (u "None"))));
          PyStr (py_str w (lookup_default (u "question30") a (PyStr (u "None"))))])].

(** [demo_world] with the answers of some collaborators replaced. *)
Definition world_with
    (env : str -> option str)
    (loads : str -> exn + pyval)
    (scores : pyval -> exn + pyval)
    (sections : str -> pyval -> pyval -> exn + pyval)
    (create : object -> pyval -> bytes -> exn + pyval)
    (permit : object -> pyval -> exn + unit)
    (listing : object -> str -> exn + pyval)
    (chunk : object -> nat -> exn + (bytes * bool)) : world :=
  {| json_dumps := json_dumps demo_world;
     repr := repr demo_world;
     latin1_error := latin1_error demo_world;
     json_loads := loads;
     unquote := unquote demo_world;
     getenv := env;
     calculate_scores := scores;
     extract_career_goal := extract_career_goal demo_world;
     generate_topic_reports := sections;
     build_report_data := build_report_data demo_world;
     generate_pdf_report := generate_pdf_report demo_world;
     from_service_account_info := from_service_account_info demo_world;
     build_drive := build_drive demo_world;
     files_create := create;
     permissions_create := permit;
     files_list := listing;
     get_media := get_media demo_world;
     next_chunk := chunk |}.

Definition quota_exceeded : exn :=
  Exn (OtherException (u "HttpError")) (u "quota exceeded").

(** The Drive refuses to publish the file. *)
Definition unshareable_world : world :=
  world_with (getenv demo_world) (json_loads demo_world)
    (calculate_scores demo_world) (generate_topic_reports demo_world)
    (files_create demo_world) (fun _ _ => inl quota_exceeded)
    (files_list demo_world) (next_chunk demo_world).

Definition pdf_head : bytes := [Byte.x25; Byte.x50; Byte.x44; Byte.x46].
Definition pdf_tail : bytes := [Byte.x25; Byte.x45; Byte.x4f; Byte.x46].

(** The download takes two chunks. *)
Definition chunked_world : world :=
  world_with (getenv demo_world) (json_loads demo_world)
    (calculate_scores demo_world) (generate_topic_reports demo_world)
    (files_create demo_world) (permissions_create demo_world)
    (files_list demo_world)
    (fun _ k => match k with
                | O => inr (pdf_head, false)
                | _ => inr (pdf_tail, true)
                end).

(** The connection breaks on the second chunk. *)
Definition broken_download_world : world :=
  world_with (getenv demo_world) (json_loads demo_world)
    (calculate_scores demo_world) (generate_topic_reports demo_world)
    (files_create demo_world) (permissions_create demo_world)
    (files_list demo_world)
    (fun _ k => match k with
                | O => inr (pdf_head, false)
                | _ => inl quota_exceeded
                end).

(** The store holds no file of the name. *)
Definition empty_store_world : world :=
  world_with (getenv demo_world) (json_loads demo_world)
    (calculate_scores demo_world) (generate_topic_reports demo_world)
    (files_create demo_world) (permissions_create demo_world)
    (fun _ _ => inr (PyDict [(u "files", PyList [])]))
    (next_chunk demo_world).

(** The Drive search fails. *)
Definition failing_search_world : world :=
  world_with (getenv demo_world) (json_loads demo_world)
    (calculate_scores demo_world) (generate_topic_reports demo_world)
    (files_create demo_world) (permissions_create demo_world)
    (fun _ _ => inl quota_exceeded)
    (next_chunk demo_world).

Definition download_request (name token : str) : request :=
  Request (download_prefix ++ name) [(u "Authorization", token)]
          (inl (Exn TypeError [])).

(** The calls of a submission up to the rendering of the PDF. *)
Definition rendering_trace (w : world) (d a : list (str * pyval))
    (trait_scores : pyval) (student_name : str) (career_goal sections
    report_data : pyval) : trace :=
  [CalculateScores (PyDict a);
   ExtractCareerGoal (dict_values a);
   GenerateTopicReports
     (strip (context_of w trait_scores (student_info_dict w d a student_name)))
     career_goal (PyStr student_name);
   BuildReportData (PyStr student_name) career_goal sections;
   GeneratePdfReport report_data].

Definition bad_gateway_json : exn :=
  Exn JSONDecodeError (u "Expecting value: line 1 column 1 (char 0)").

(** The scorer fails while decoding JSON of its own. *)
Definition scorer_json_error_world : world :=
  world_with (getenv demo_world) (json_loads demo_world)
    (fun _ => inl bad_gateway_json) (generate_topic_reports demo_world)
    (files_create demo_world) (permissions_create demo_world)
    (files_list demo_world) (next_chunk demo_world).

(** The narrative generator answers no section. *)
Definition no_sections_world : world :=
  world_with (getenv demo_world) (json_loads demo_world)
    (calculate_scores demo_world) (fun _ _ _ => inr (PyDict []))
    (files_create demo_world) (permissions_create demo_world)
    (files_list demo_world) (next_chunk demo_world).

(** No Drive credentials in the environment. *)
Definition unconfigured_world : world :=
  world_with (fun _ => None) (json_loads demo_world)
    (calculate_scores demo_world) (generate_topic_reports demo_world)
    (files_create demo_world) (permissions_create demo_world)
    (files_list demo_world) (next_chunk demo_world).

Definition doctor_answers : list (str * pyval) :=
  [(u "question1", PyStr (u "Doctor"))].

Definition null_name_submission : list (str * pyval) :=
  [(u "answers", PyDict doctor_answers); (u "studentName", PyNone)].

Definition padded_name_submission : list (str * pyval) :=
  [(u "answers", PyDict doctor_answers); (u "studentName", PyStr (u "  Asha Rao "))].

Definition clean_name_submission : list (str * pyval) :=
  [(u "answers", PyDict doctor_answers); (u "studentName", PyStr (u "Asha Rao"))].

(* ------------------------------------------------------------------ *)
(** * Strings: basic facts *)

Lemma str_eqb_refl (a : str) : str_eqb a a = true.
Proof.
  induction a as [|c a IH]; simpl; [reflexivity|].
  now rewrite N.eqb_refl.
Qed.

Lemma str_eqb_eq (a b : str) : str_eqb a b = true <-> a = b.
Proof.
  split; [|intros ->; apply str_eqb_refl].
  revert b; induction a as [|x a IH]; intros [|y b]; simpl; try discriminate; auto.
  intros H; apply andb_true_iff in H; destruct H as [Hxy Hab].
  apply N.eqb_eq in Hxy; subst y.
  now rewrite (IH b Hab).
Qed.

Lemma str_eqb_neq (a b : str) : str_eqb a b = false <-> a <> b.
Proof.
  split.
  - intros H E. apply str_eqb_eq in E. congruence.
  - intros H. destruct (str_eqb a b) eqn:E; [|reflexivity].
    apply str_eqb_eq in E. contradiction.
Qed.

Lemma startswith_app (p r : str) : startswith (p ++ r) p = true.
Proof.
  induction p as [|c p IH]; simpl; [reflexivity|].
  now rewrite N.eqb_refl.
Qed.

Lemma startswith_inv (s p : str) :
  startswith s p = true -> exists r, s = p ++ r.
Proof.
  revert s; induction p as [|c p IH]; intros s H.
  - now exists s.
  - destruct s as [|d s]; simpl in H; [discriminate|].
    apply andb_true_iff in H; destruct H as [Hcd Hs].
    apply N.eqb_eq in Hcd; subst d.
    destruct (IH s Hs) as [r ->]. now exists r.
Qed.

(** A path under the download prefix is not the health path. *)
Lemma download_path_not_health (s : str) :
  startswith s download_prefix = true -> str_eqb s (u "/api/health") = false.
Proof.
  intros H. apply startswith_inv in H. destruct H as [r ->]. reflexivity.
Qed.

(* ------------------------------------------------------------------ *)
(** * Computations: inversion *)

Lemma bind_returns {A B} (m : M A) (f : A -> M B) (b : B) (t : trace) :
  bind m f = (inr b, t) ->
  exists a t1 t2, m = (inr a, t1) /\ f a = (inr b, t2) /\ t = t1 ++ t2.
Proof.
  unfold bind. destruct m as [[e|a] t1]; [discriminate|].
  destruct (f a) as [r t2] eqn:Hf. intros H; inversion H; subst.
  now exists a, t1, t2.
Qed.

Lemma lift_returns {A} (r : exn + A) (a : A) (t : trace) :
  lift r = (inr a, t) -> r = inr a /\ t = [].
Proof. unfold lift. intros H; inversion H; auto. Qed.

Lemma call_returns {A} (ev : event) (r : exn + A) (a : A) (t : trace) :
  call ev r = (inr a, t) -> r = inr a /\ t = [ev].
Proof. unfold call. intros H; inversion H; auto. Qed.

Lemma ret_returns {A} (x a : A) (t : trace) :
  ret x = (inr a, t) -> x = a /\ t = [].
Proof. unfold ret. intros H; inversion H; auto. Qed.

Lemma total_returns {A} (x : A * trace) (a : A) (t : trace) :
  total x = (inr a, t) -> x = (a, t).
Proof. unfold total. destruct x. simpl. intros H; inversion H; auto. Qed.

Lemma bind_lift {A B} (a : A) (f : A -> M B) : bind (lift (inr a)) f = f a.
Proof. unfold bind, lift. now destruct (f a). Qed.

Lemma bind_ret {A B} (a : A) (f : A -> M B) : bind (ret a) f = f a.
Proof. unfold bind, ret. now destruct (f a). Qed.

Lemma bind_raise {A B} (e : exn) (t : trace) (f : A -> M B) :
  bind (inl e, t) f = (inl e, t).
Proof. reflexivity. Qed.

Lemma bind_bind {A B C} (m : M A) (f : A -> M B) (g : B -> M C) :
  bind (bind m f) g = bind m (fun a => bind (f a) g).
Proof.
  unfold bind. destruct m as [[e|a] t]; [reflexivity|].
  destruct (f a) as [[e|b] t1]; [reflexivity|].
  destruct (g b) as [r t2]. now rewrite app_assoc.
Qed.

(* ------------------------------------------------------------------ *)
(** * Validation of the submission (lines 170-174) *)

(** The 400 branch of line 171.  A body that is empty or null (a falsy
    value), or a container that does not hold "answers" (an object
    without that key, an array without that element, a string without
    that substring), is answered 400 with the body
    {"error": "Missing answers data"}; no collaborator is called: no
    scoring, no narrative generation, no rendering, no upload. *)
Theorem missing_answers_400 (w : world) (req : request) (data : pyval) :
  path req = submit_path ->
  body req = inr data ->
  truthy data = false
  \/ (exists d, data = PyDict d /\ lookup (u "answers") d = None)
  \/ (exists l, data = PyList l /\ existsb (is_str (u "answers")) l = false)
  \/ (exists s, data = PyStr s /\ str_contains s (u "answers") = false) ->
  do_POST w req =
    (Response 400 json_content_type
       (Json (PyDict [(u "error", PyStr (u "Missing answers data"))])),
     []).
Proof.
  intros Hpath Hbody Hdata.
  unfold do_POST. rewrite Hpath. fold submit_path. rewrite str_eqb_refl.
  unfold submit_assessment. rewrite Hbody, bind_lift.
  destruct (truthy data) eqn:Htruthy; cbn [negb]; [|reflexivity].
  assert (Hlacks : contains (u "answers") data = inr false).
  { destruct Hdata as [Hfalsy | [(d & -> & Hd) | [(l & -> & Hl) | (s & -> & Hs)]]].
    - congruence.
    - unfold contains. now rewrite Hd.
    - unfold contains. now rewrite Hl.
    - unfold contains. now rewrite Hs. }
  rewrite Hlacks, bind_bind, bind_lift, bind_ret. reflexivity.
Qed.

Lemma missing_answers_400_witness :
  do_POST demo_world (post (PyDict [(u "studentName", PyStr (u "Asha"))])) =
    (Response 400 json_content_type
       (Json (PyDict [(u "error", PyStr (u "Missing answers data"))])),
     []).
Proof.
  apply (@missing_answers_400 demo_world
           (post (PyDict [(u "studentName", PyStr (u "Asha"))]))
           (PyDict [(u "studentName", PyStr (u "Asha"))])).
  - reflexivity.
  - reflexivity.
  - right. left. eexists. split; reflexivity.
Defined.

(** C3.  A POST to /api/submit-assessment whose parsed body is an object
    with an "answers" key whose value is not a mapping is answered 400
    with the body {"error": "Invalid answers format"}. *)
Theorem invalid_answers_400 (w : world) (req : request)
    (d : list (str * pyval)) (answers : pyval) :
  path req = submit_path ->
  body req = inr (PyDict d) ->
  lookup (u "answers") d = Some answers ->
  isinstance_dict answers = false ->
  do_POST w req =
    (Response 400 json_content_type
       (Json (PyDict [(u "error", PyStr (u "Invalid answers format"))])),
     []).
Proof.
  intros Hpath Hbody Hd Hanswers.
  unfold do_POST. rewrite Hpath. fold submit_path. rewrite str_eqb_refl.
  unfold submit_assessment. rewrite Hbody.
  assert (Hne : truthy (PyDict d) = true) by (destruct d; [discriminate|reflexivity]).
  rewrite bind_lift, Hne. cbn [negb].
  unfold contains, getitem. rewrite Hd.
  rewrite bind_bind, bind_lift, bind_ret. cbn [negb].
  rewrite bind_lift, Hanswers. reflexivity.
Qed.

Lemma invalid_answers_400_witness :
  do_POST demo_world
    (post (PyDict [(u "answers", PyList [PyStr (u "A"); PyStr (u "B")])])) =
    (Response 400 json_content_type
       (Json (PyDict [(u "error", PyStr (u "Invalid answers format"))])),
     []).
Proof.
  apply (@invalid_answers_400 demo_world
           (post (PyDict [(u "answers", PyList [PyStr (u "A"); PyStr (u "B")])]))
           [(u "answers", PyList [PyStr (u "A"); PyStr (u "B")])]
           (PyList [PyStr (u "A"); PyStr (u "B")]));
    reflexivity.
Defined.

(** Malformed JSON is answered 400. *)
Lemma malformed_json_400 (w : world) (req : request) (e : exn) :
  path req = submit_path ->
  body req = inl e ->
  exn_class_of e = JSONDecodeError ->
  do_POST w req = (send_error 400 (u "Invalid JSON data"), []).
Proof.
  intros Hpath Hbody He.
  unfold do_POST. rewrite Hpath. fold submit_path. rewrite str_eqb_refl.
  unfold submit_assessment. rewrite Hbody. cbn [negb lift bind].
  unfold is_json_decode_error. now rewrite He.
Qed.

(** C2.  The JSON body [true] parses and has no "answers" field, yet it
    is not answered 400 "Missing answers data": the membership test of
    line 170 raises on a boolean and the handler of lines 243-245
    answers 500 with the text of the TypeError.  No collaborator is
    called. *)
Theorem boolean_body_500 (w : world) :
  do_POST w (post (PyBool true)) =
    (Response 500 json_content_type
       (Json (PyDict
          [(u "error",
            PyStr (u "Assessment processing failed: argument of type 'bool' is not iterable"))])),
     []).
Proof. reflexivity. Qed.

(** C5.  The JSON body [5] is a client-input error (it carries no
    answers), yet the membership test of line 170 raises on a number and
    the request is answered 500, not 400. *)
Theorem number_body_500 (w : world) :
  do_POST w (post (PyInt 5)) =
    (Response 500 json_content_type
       (Json (PyDict
          [(u "error",
            PyStr (u "Assessment processing failed: argument of type 'int' is not iterable"))])),
     []).
Proof. reflexivity. Qed.

(** The sibling bodies [0], [null], an empty array and an array without
    the string "answers" take the 400 branch of line 171; an array or a
    string that holds "answers" raises at line 173 and is answered 500. *)
Lemma sibling_bodies (w : world) :
  status (fst (do_POST w (post (PyInt 0)))) = 400%Z
  /\ status (fst (do_POST w (post PyNone))) = 400%Z
  /\ status (fst (do_POST w (post (PyList [])))) = 400%Z
  /\ status (fst (do_POST w (post (PyList [PyStr (u "a")])))) = 400%Z
  /\ status (fst (do_POST w (post (PyBool true)))) = 500%Z
  /\ status (fst (do_POST w (post (PyList [PyStr (u "answers")])))) = 500%Z
  /\ status (fst (do_POST w (post (PyStr (u "answers"))))) = 500%Z.
Proof. repeat split; reflexivity. Qed.

(* ------------------------------------------------------------------ *)
(** * The download path (lines 260-272) *)

Lemma re_match_literal (p : str) (q : list re_node) (s : str) :
  re_match (map ReChar p ++ q) (p ++ s) = re_match q s.
Proof.
  induction p as [|c p IH]; [reflexivity|].
  simpl. now rewrite N.eqb_refl.
Qed.

Lemma re_match_any_star (s : str) :
  re_match [ReAnyStarGroup] s = Some [first_line s].
Proof.
  induction s as [|c s IH]; [reflexivity|].
  simpl. simpl in IH. rewrite IH.
  now destruct (N.eqb c 10).
Qed.

(** The pattern matches every path under the prefix, and captures the
    rest of the path up to a newline. *)
Lemma download_pattern_matches (rest : str) :
  re_match download_pattern (download_prefix ++ rest) = Some [first_line rest].
Proof.
  unfold download_pattern. rewrite re_match_literal. apply re_match_any_star.
Qed.

(** C6.  A GET to /api/download-report/<filename> with no Authorization
    header, or with one that does not begin with "Bearer ", is answered
    401 with the body {"error": "Authorization required"}; the trace is
    empty: the storage client is not initialised and the store is not
    searched before the 401 is sent. *)
Theorem download_unauthorized_401 (w : world) (fuel : nat) (req : request)
    (filename : str) :
  path req = download_prefix ++ filename ->
  headers_get (headers req) (u "Authorization") = None
  \/ (exists h, headers_get (headers req) (u "Authorization") = Some h
                /\ startswith h (u "Bearer ") = false) ->
  do_GET w fuel req =
    Some (Response 401 json_content_type
            (Json (PyDict [(u "error", PyStr (u "Authorization required"))])),
          []).
Proof.
  intros Hpath Hauth.
  unfold do_GET. rewrite Hpath.
  rewrite download_path_not_health by apply startswith_app.
  rewrite startswith_app.
  unfold download_report. rewrite Hpath, download_pattern_matches.
  destruct Hauth as [-> | [h [-> Hh]]]; [reflexivity|].
  unfold unauthorized. rewrite Hh. now destruct h.
Qed.

Lemma download_unauthorized_401_witness :
  do_GET demo_world 0
    (Request (download_prefix ++ u "foo.pdf") [(u "Accept", u "*/*")]
             (inl (Exn TypeError []))) =
    Some (Response 401 json_content_type
            (Json (PyDict [(u "error", PyStr (u "Authorization required"))])),
          []).
Proof.
  apply (@download_unauthorized_401 demo_world 0
           (Request (download_prefix ++ u "foo.pdf") [(u "Accept", u "*/*")]
                    (inl (Exn TypeError [])))
           (u "foo.pdf")).
  - reflexivity.
  - left. reflexivity.
Defined.

(* ------------------------------------------------------------------ *)
(** * Routing *)

(** C7, as amended.  A GET or POST request whose method and path are not
    one of the routes (POST /api/submit-assessment, GET /api/health,
    GET /api/download-report/<filename>) is answered 404 with the body
    {"error": "Route not found"}, and no collaborator is called. *)
Theorem unknown_route_404 (w : world) (fuel : nat) (command : str)
    (req : request) :
  command = u "GET" \/ command = u "POST" ->
  defined_route command (path req) = false ->
  handle w fuel command req =
    Some (Response 404 json_content_type
            (Json (PyDict [(u "error", PyStr (u "Route not found"))])),
          []).
Proof.
  intros [-> | ->] Hroute; unfold defined_route in Hroute;
    unfold handle, do_GET, do_POST.
  - change (str_eqb (u "GET") (u "POST")) with false in *.
    change (str_eqb (u "GET") (u "GET")) with true in *.
    cbn [andb orb] in Hroute.
    apply orb_false_iff in Hroute. destruct Hroute as [-> ->]. reflexivity.
  - change (str_eqb (u "POST") (u "POST")) with true in *.
    change (str_eqb (u "POST") (u "GET")) with false in *.
    cbn [andb orb] in Hroute.
    rewrite !orb_false_r in Hroute. fold submit_path.
    rewrite Hroute. reflexivity.
Qed.

Lemma unknown_route_404_witness :
  handle demo_world 0 (u "GET")
    (Request (u "/api/submit-assessment") [] (inl (Exn TypeError []))) =
    Some (Response 404 json_content_type
            (Json (PyDict [(u "error", PyStr (u "Route not found"))])),
          []).
Proof.
  apply (@unknown_route_404 demo_world 0 (u "GET")
           (Request (u "/api/submit-assessment") [] (inl (Exn TypeError [])))).
  - left. reflexivity.
  - reflexivity.
Defined.

(** C7, as stated, fails: PUT /api/health is not a route, and the class
    has no [do_PUT], so the base class answers 501. *)
Lemma unknown_method_not_404 :
  ~ (forall (w : world) (fuel : nat) (command : str) (req : request),
        defined_route command (path req) = false ->
        handle w fuel command req =
          Some (Response 404 json_content_type
                  (Json (PyDict [(u "error", PyStr (u "Route not found"))])),
                [])).
Proof.
  intros H.
  specialize (H demo_world 0%nat (u "PUT")
                (Request (u "/api/health") [] (inl (Exn TypeError [])))
                eq_refl).
  discriminate H.
Qed.

(* ------------------------------------------------------------------ *)
(** * The successful submission (lines 176-239) *)

Ltac inv_bind H a Ha :=
  let t1 := fresh "t" in let t2 := fresh "t" in let Ht := fresh "Ht" in
  apply bind_returns in H; destruct H as (a & t1 & t2 & Ha & H & Ht).

Ltac inv_lift H := apply lift_returns in H; destruct H as [H ?].
Ltac inv_call H := apply call_returns in H; destruct H as [H ?].
Ltac inv_error H H200 :=
  apply ret_returns in H; destruct H as [H _]; subst; discriminate H200.

Lemma getitem_dict (v : pyval) (key : str) (x : pyval) :
  getitem v key = inr x -> exists d, v = PyDict d /\ lookup key d = Some x.
Proof.
  destruct v; try discriminate. simpl.
  destruct (lookup key entries) eqn:E; [|discriminate].
  intros H; inversion H; subst. eauto.
Qed.

Lemma submit_success_inv (w : world) (req : request) (sent : response) (t : trace) :
  submit_assessment w req = (inr sent, t) ->
  status sent = 200%Z ->
  exists d answers student_name career_goal drive_service pdf_content
         upload_result t_up report_url file_id,
    body req = inr (PyDict d)
    /\ lookup (u "answers") d = Some (PyDict answers)
    /\ strip_method (match lookup (u "studentName") d with
                     | Some x => x
                     | None => PyStr (u "Student")
                     end) = inr student_name
    /\ extract_career_goal w (dict_values answers) = inr career_goal
    /\ truthy career_goal = true
    /\ upload_to_drive w drive_service pdf_content (pdf_filename_of student_name)
         (getenv w (u "GOOGLE_DRIVE_FOLDER_ID")) = (upload_result, t_up)
    /\ getitem upload_result (u "webViewLink") = inr report_url
    /\ getitem upload_result (u "id") = inr file_id
    /\ sent = Response 200 json_content_type
                (Json (success_body report_url file_id
                         (pdf_filename_of student_name) student_name career_goal)).
Proof.
  intros Hs H200. unfold submit_assessment in Hs.
  inv_bind Hs data Hdata. inv_lift Hdata.
  inv_bind Hs missing Hmissing.
  destruct missing; [inv_error Hs H200|].
  inv_bind Hs answers Hanswers. inv_lift Hanswers.
  destruct (isinstance_dict answers) eqn:Hisdict; cbn [negb] in Hs;
    [|inv_error Hs H200].
  destruct answers as [| | | | | |a]; try discriminate Hisdict.
  apply getitem_dict in Hanswers. destruct Hanswers as (d & -> & Hd).
  inv_bind Hs answers1 Hanswers1. inv_lift Hanswers1.
  simpl in Hanswers1. rewrite Hd in Hanswers1. inversion Hanswers1; subst answers1.
  inv_bind Hs trait_scores Hscores. inv_call Hscores.
  inv_bind Hs name_field Hname. inv_lift Hname.
  inv_bind Hs student_name Hstrip. inv_lift Hstrip.
  inv_bind Hs student_info Hinfo.
  inv_bind Hs answers2 Hanswers2. inv_lift Hanswers2.
  simpl in Hanswers2. rewrite Hd in Hanswers2. inversion Hanswers2; subst answers2.
  inv_bind Hs values Hvalues. inv_lift Hvalues.
  inversion Hvalues; subst values.
  inv_bind Hs career_goal Hgoal. inv_call Hgoal.
  destruct (truthy career_goal) eqn:Htruthy; cbn [negb] in Hs;
    [|inv_error Hs H200].
  cbv zeta in Hs.
  inv_bind Hs name Hn. inv_lift Hn.
  inv_bind Hs report_sections Hsections. inv_call Hsections.
  destruct (truthy report_sections) eqn:Hsec; cbn [negb] in Hs;
    [|inv_error Hs H200].
  inv_bind Hs name' Hn'. inv_lift Hn'.
  inv_bind Hs report_data Hreport. inv_call Hreport.
  inv_bind Hs pdf_content Hpdf. inv_call Hpdf.
  inv_bind Hs drive Hdrive. apply total_returns in Hdrive.
  destruct drive as [drive_service|]; [|inv_error Hs H200].
  inv_bind Hs folder_id Hfolder. inv_call Hfolder.
  inversion Hfolder; subst folder_id.
  inv_bind Hs upload_result Hupload. apply total_returns in Hupload.
  destruct (truthy upload_result) eqn:Hup; cbn [negb] in Hs;
    [|inv_error Hs H200].
  inv_bind Hs report_url Hurl. inv_lift Hurl.
  inv_bind Hs file_id Hfid. inv_lift Hfid.
  apply ret_returns in Hs. destruct Hs as [<- _].
  simpl in Hname. inversion Hname; subst name_field.
  exists d, a, student_name, career_goal, drive_service, pdf_content,
    upload_result. eexists. exists report_url, file_id.
  repeat split; eauto.
Qed.

(** A 200 from [do_POST] is the response its [try] block sent. *)
Lemma do_POST_200 (w : world) (req : request) :
  status (fst (do_POST w req)) = 200%Z ->
  path req = submit_path
  /\ exists sent t, submit_assessment w req = (inr sent, t)
                    /\ do_POST w req = (sent, t).
Proof.
  unfold do_POST. fold submit_path.
  destruct (str_eqb (path req) submit_path) eqn:Hpath; cbn [negb];
    [|discriminate].
  apply str_eqb_eq in Hpath.
  destruct (submit_assessment w req) as [[e|sent] t].
  - destruct (is_json_decode_error e); discriminate.
  - intros _. split; [assumption|]. now exists sent, t.
Qed.

(** C1.  A POST to /api/submit-assessment with studentName "Asha" that
    is answered 200 (every stage of the pipeline succeeded) carries the
    JSON object with exactly the keys message, report_url, file_id,
    file_name, student_name, career_goal, where student_name is "Asha",
    career_goal is the truthy value the goal extractor returned for the
    ordered answer values, report_url and file_id are the webViewLink
    and id of the upload result, and file_name is
    "Asha_Career_Report.pdf". *)
Theorem submit_success_response (w : world) (req : request)
    (d : list (str * pyval)) :
  body req = inr (PyDict d) ->
  lookup (u "studentName") d = Some (PyStr (u "Asha")) ->
  status (fst (do_POST w req)) = 200%Z ->
  exists answers career_goal drive_service pdf_content upload_result t
         report_url file_id,
    path req = submit_path
    /\ lookup (u "answers") d = Some (PyDict answers)
    /\ extract_career_goal w (dict_values answers) = inr career_goal
    /\ truthy career_goal = true
    /\ upload_to_drive w drive_service pdf_content (u "Asha_Career_Report.pdf")
         (getenv w (u "GOOGLE_DRIVE_FOLDER_ID")) = (upload_result, t)
    /\ getitem upload_result (u "webViewLink") = inr report_url
    /\ getitem upload_result (u "id") = inr file_id
    /\ fst (do_POST w req) =
         Response 200 json_content_type
           (Json (PyDict
              [(u "message", PyStr (u "Report generated successfully"));
               (u "report_url", report_url);
               (u "file_id", file_id);
               (u "file_name", PyStr (u "Asha_Career_Report.pdf"));
               (u "student_name", PyStr (u "Asha"));
               (u "career_goal", career_goal)])).
Proof.
  intros Hbody Hname H200.
  destruct (do_POST_200 w req H200) as (Hpath & sent & t & Hs & Hpost).
  rewrite Hpost in *. cbn [fst] in *.
  destruct (@submit_success_inv w req sent t Hs H200)
    as (d' & answers & student_name & career_goal & drive_service & pdf_content
        & upload_result & t_up & report_url & file_id
        & Hbody' & Hd & Hstrip & Hgoal & Htruthy & Hupload & Hurl & Hfid & ->).
  rewrite Hbody in Hbody'. inversion Hbody'; subst d'.
  rewrite Hname in Hstrip. inversion Hstrip; subst student_name.
  exists answers, career_goal, drive_service, pdf_content, upload_result, t_up,
    report_url, file_id.
  repeat split; assumption || reflexivity.
Qed.

Lemma submit_success_response_witness :
  exists answers career_goal drive_service pdf_content upload_result t
         report_url file_id,
    path (post asha_submission) = submit_path
    /\ lookup (u "answers")
         [(u "answers",
            PyDict [(u "question1", PyStr (u "Software Engineer"));
                    (u "question2", PyStr (u "B"))]);
          (u "studentName", PyStr (u "Asha"))] = Some (PyDict answers)
    /\ extract_career_goal demo_world (dict_values answers) = inr career_goal
    /\ truthy career_goal = true
    /\ upload_to_drive demo_world drive_service pdf_content
         (u "Asha_Career_Report.pdf")
         (getenv demo_world (u "GOOGLE_DRIVE_FOLDER_ID")) = (upload_result, t)
    /\ getitem upload_result (u "webViewLink") = inr report_url
    /\ getitem upload_result (u "id") = inr file_id
    /\ fst (do_POST demo_world (post asha_submission)) =
         Response 200 json_content_type
           (Json (PyDict
              [(u "message", PyStr (u "Report generated successfully"));
               (u "report_url", report_url);
               (u "file_id", file_id);
               (u "file_name", PyStr (u "Asha_Career_Report.pdf"));
               (u "student_name", PyStr (u "Asha"));
               (u "career_goal", career_goal)])).
Proof.
  apply (@submit_success_response demo_world (post asha_submission)
           [(u "answers",
              PyDict [(u "question1", PyStr (u "Software Engineer"));
                      (u "question2", PyStr (u "B"))]);
            (u "studentName", PyStr (u "Asha"))]).
  - reflexivity.
  - reflexivity.
  - vm_compute. reflexivity.
Defined.


(* ------------------------------------------------------------------ *)
(** * What [strip] removes *)

Lemma lstrip_spec (s : str) :
  exists lead, s = lead ++ lstrip s
               /\ forallb isspace lead = true
               /\ match lstrip s with c :: _ => isspace c = false | [] => True end.
Proof.
  induction s as [|c s (lead & Hs & Hlead & Hhead)]; [now exists []|].
  simpl. destruct (isspace c) eqn:Hc.
  - exists (c :: lead). simpl. rewrite Hc, Hlead. repeat split; auto. congruence.
  - exists []. repeat split; auto.
Qed.

Lemma forallb_rev (f : N -> bool) (l : str) :
  forallb f l = true -> forallb f (rev l) = true.
Proof.
  rewrite !forallb_forall. intros H x Hx. apply H. now apply in_rev.
Qed.

Lemma lstrip_keeps_last (a : str) (c : N) :
  isspace c = false -> exists a', lstrip (a ++ [c]) = a' ++ [c].
Proof.
  intros Hc. induction a as [|x a (a' & IH)]; simpl.
  - rewrite Hc. now exists [].
  - destruct (isspace x); [now exists a'|]. now exists (x :: a).
Qed.

Lemma rstrip_spec (s : str) :
  exists trail, s = rstrip s ++ trail
                /\ forallb isspace trail = true
                /\ match rstrip s with
                   | c :: _ => isspace (last (rstrip s) c) = false
                   | [] => True
                   end.
Proof.
  unfold rstrip. destruct (lstrip_spec (rev s)) as (lead & Hs & Hlead & Hhead).
  exists (rev lead). split; [|split].
  - rewrite <- rev_app_distr, <- Hs. now rewrite rev_involutive.
  - now apply forallb_rev.
  - destruct (lstrip (rev s)) as [|d y]; [exact I|].
    simpl. destruct (rev y ++ [d]) as [|c z] eqn:E.
    + exact I.
    + rewrite <- E. now rewrite last_last.
Qed.

Lemma rstrip_keeps_head (c : N) (s : str) :
  isspace c = false -> exists s', rstrip (c :: s) = c :: s'.
Proof.
  intros Hc. unfold rstrip. simpl.
  destruct (@lstrip_keeps_last (rev s) c Hc) as (a' & ->).
  rewrite rev_app_distr. simpl. now exists (rev a').
Qed.

(** [strip s] is [s] without a leading and a trailing run of whitespace,
    and neither begins nor ends with whitespace. *)
Lemma strip_spec (s : str) :
  exists lead trail,
    s = lead ++ strip s ++ trail
    /\ forallb isspace lead = true
    /\ forallb isspace trail = true
    /\ padded (strip s) = false.
Proof.
  unfold strip.
  destruct (lstrip_spec s) as (lead & Hs & Hlead & Hhead).
  destruct (rstrip_spec (lstrip s)) as (trail & Hr & Htrail & Hlast).
  exists lead, trail. repeat split; auto.
  - now rewrite <- Hr.
  - unfold padded. destruct (lstrip s) as [|c y] eqn:E; [reflexivity|].
    destruct (@rstrip_keeps_head c y Hhead) as (s' & Hs').
    rewrite Hs' in *. now rewrite Hhead, Hlast.
Qed.

(** [replace(' ', '_')] changes the spaces and nothing else. *)
Lemma replace_space_nth (s : str) (i : nat) :
  nth_error (replace_char 32 95 s) i =
  option_map (fun c => if N.eqb c 32 then 95%N else c) (nth_error s i).
Proof. unfold replace_char. apply nth_error_map. Qed.

(** C10.  In the 200 response to a submission, student_name is the
    submitted studentName without its leading and trailing whitespace
    and with its interior spaces kept, and file_name is a stem followed
    by "_Career_Report.pdf", where the stem is that name character by
    character with an underscore at every space, and holds no space;
    when the studentName field is absent the name is "Student" and the
    file name "Student_Career_Report.pdf". *)
Theorem student_name_in_response (w : world) (req : request)
    (d : list (str * pyval)) :
  body req = inr (PyDict d) ->
  status (fst (do_POST w req)) = 200%Z ->
  (lookup (u "studentName") d = None ->
   field (fst (do_POST w req)) (u "student_name") = Some (PyStr (u "Student"))
   /\ field (fst (do_POST w req)) (u "file_name")
      = Some (PyStr (u "Student_Career_Report.pdf")))
  /\ (forall v, lookup (u "studentName") d = Some v ->
      exists s lead trail,
        v = PyStr s
        /\ s = lead ++ strip s ++ trail
        /\ forallb isspace lead = true
        /\ forallb isspace trail = true
        /\ padded (strip s) = false
        /\ field (fst (do_POST w req)) (u "student_name") = Some (PyStr (strip s))
        /\ exists stem,
             field (fst (do_POST w req)) (u "file_name")
             = Some (PyStr (stem ++ u "_Career_Report.pdf"))
             /\ List.length stem = List.length (strip s)
             /\ (forall i c, nth_error (strip s) i = Some c ->
                             nth_error stem i
                             = Some (if (c =? 32)%N then 95%N else c))
             /\ ~ In 32%N stem).
Proof.
  intros Hbody H200.
  destruct (do_POST_200 w req H200) as (Hpath & sent & t & Hs & Hpost).
  rewrite Hpost in *. cbn [fst] in *.
  destruct (@submit_success_inv w req sent t Hs H200)
    as (d' & answers & student_name & career_goal & drive_service & pdf_content
        & upload_result & t_up & report_url & file_id
        & Hbody' & Hd & Hstrip & Hgoal & Htruthy & Hupload & Hurl & Hfid & ->).
  rewrite Hbody in Hbody'. inversion Hbody'; subst d'.
  split.
  - intros Habsent. rewrite Habsent in Hstrip.
    inversion Hstrip; subst student_name. split; reflexivity.
  - intros v Hv. rewrite Hv in Hstrip.
    destruct v as [| | | |s| |]; try discriminate Hstrip.
    inversion Hstrip; subst student_name.
    destruct (strip_spec s) as (lead & trail & Hdecomp & Hlead & Htrail & Hpad).
    exists s, lead, trail. do 6 (split; [assumption || reflexivity|]).
    exists (replace_char 32 95 (strip s)).
    split; [reflexivity|]. split; [apply List.length_map|]. split.
    + intros i c Hc. rewrite replace_space_nth, Hc. reflexivity.
    + unfold replace_char. intros H. apply in_map_iff in H.
      destruct H as (c & Hc & _).
      destruct (N.eqb c 32) eqn:E; [discriminate Hc|].
      apply N.eqb_neq in E. contradiction.
Qed.

Lemma student_name_in_response_witness :
  (field (fst (do_POST demo_world (post anonymous_submission))) (u "student_name")
     = Some (PyStr (u "Student"))
   /\ field (fst (do_POST demo_world (post anonymous_submission))) (u "file_name")
      = Some (PyStr (u "Student_Career_Report.pdf")))
  /\ (exists s lead trail,
        PyStr (u "  Asha Rao ") = PyStr s
        /\ s = lead ++ strip s ++ trail
        /\ forallb isspace lead = true
        /\ forallb isspace trail = true
        /\ padded (strip s) = false
        /\ field (fst (do_POST demo_world (post (PyDict padded_name_submission))))
             (u "student_name") = Some (PyStr (strip s))
        /\ exists stem,
             field (fst (do_POST demo_world (post (PyDict padded_name_submission))))
                   (u "file_name")
             = Some (PyStr (stem ++ u "_Career_Report.pdf"))
             /\ List.length stem = List.length (strip s)
             /\ (forall i c, nth_error (strip s) i = Some c ->
                             nth_error stem i
                             = Some (if (c =? 32)%N then 95%N else c))
             /\ ~ In 32%N stem).
Proof.
  split.
  - apply (@student_name_in_response demo_world (post anonymous_submission)
             [(u "answers", PyDict [(u "question1", PyStr (u "Doctor"))])]).
    + reflexivity.
    + vm_compute. reflexivity.
    + reflexivity.
  - apply (@student_name_in_response demo_world
             (post (PyDict padded_name_submission)) padded_name_submission).
    + reflexivity.
    + vm_compute. reflexivity.
    + reflexivity.
Defined.

(** A name with padding and an interior space. *)
Example padded_name_response :
  let sent :=
    fst (do_POST demo_world
           (post (PyDict [(u "answers", PyDict [(u "question1", PyStr (u "Doctor"))]);
                          (u "studentName", PyStr (u "  Asha Rao "))]))) in
  status sent = 200%Z
  /\ field sent (u "student_name") = Some (PyStr (u "Asha Rao"))
  /\ field sent (u "file_name") = Some (PyStr (u "Asha_Rao_Career_Report.pdf")).
Proof. vm_compute. repeat split. Qed.


(* ------------------------------------------------------------------ *)
(** * The missing career goal (lines 193-195) *)

Lemma contains_lookup (key : str) (d : list (str * pyval)) (x : pyval) :
  lookup key d = Some x -> contains key (PyDict d) = inr true.
Proof. intros H. unfold contains. now rewrite H. Qed.

Lemma getitem_lookup (key : str) (d : list (str * pyval)) (x : pyval) :
  lookup key d = Some x -> getitem (PyDict d) key = inr x.
Proof. intros H. unfold getitem. now rewrite H. Qed.

Lemma bind_pure {A B} (a : A) (f : A -> M B) : bind (inr a, []) f = f a.
Proof. apply bind_lift. Qed.

Lemma bind_call {A B} (ev : event) (a : A) (f : A -> M B) :
  bind (call ev (inr a)) f = (fst (f a), ev :: snd (f a)).
Proof. unfold bind, call. now destruct (f a). Qed.

(** On an object whose answers are a mapping, building [student_info]
    raises nothing and calls nothing. *)
Lemma student_info_of_returns (w : world) (d answers : list (str * pyval))
    (student_name : str) :
  lookup (u "answers") d = Some (PyDict answers) ->
  exists info, student_info_of w (PyDict d) student_name = (inr info, []).
Proof.
  intros Hd. unfold student_info_of. cbn [get].
  rewrite !bind_lift. rewrite Hd. cbn [get]. rewrite !bind_lift.
  eexists. reflexivity.
Qed.

(** C4.  A POST to /api/submit-assessment that passes the validation of
    its answers and reaches the goal extraction, where the extractor
    returns [None] or the empty string for the ordered answer values, is
    answered 500 with the body {"error": "Failed to extract career
    goal"}; the calls made are the scoring and the extraction only: no
    goal is substituted and no narrative is generated. *)
Theorem missing_career_goal_500 (w : world) (req : request)
    (d answers : list (str * pyval)) (career_goal : pyval) :
  path req = submit_path ->
  body req = inr (PyDict d) ->
  lookup (u "answers") d = Some (PyDict answers) ->
  In (ExtractCareerGoal (dict_values answers)) (snd (do_POST w req)) ->
  extract_career_goal w (dict_values answers) = inr career_goal ->
  career_goal = PyNone \/ career_goal = PyStr [] ->
  do_POST w req =
    (Response 500 json_content_type
       (Json (PyDict [(u "error", PyStr (u "Failed to extract career goal"))])),
     [CalculateScores (PyDict answers); ExtractCareerGoal (dict_values answers)]).
Proof.
  intros Hpath Hbody Hd Hreached Hgoal Habsent.
  assert (Hfalsy : truthy career_goal = false)
    by (destruct Habsent; subst; reflexivity).
  assert (Hne : truthy (PyDict d) = true)
    by (destruct d; [discriminate|reflexivity]).
  revert Hreached.
  unfold do_POST. rewrite Hpath. fold submit_path. rewrite str_eqb_refl.
  cbn [negb]. unfold submit_assessment. rewrite Hbody.
  rewrite bind_lift, Hne. cbn [negb].
  rewrite (contains_lookup _ _ Hd), (getitem_lookup _ _ Hd).
  rewrite bind_bind, bind_lift, bind_ret. cbn [negb].
  rewrite bind_lift. cbn [negb isinstance_dict]. rewrite bind_lift.
  destruct (calculate_scores w (PyDict answers)) as [e|trait_scores].
  { cbn. destruct (is_json_decode_error e); cbn; intros [H|[]]; discriminate H. }
  rewrite bind_call. cbn [get]. rewrite bind_lift.
  destruct (strip_method _) as [e|student_name].
  { cbn. destruct (is_json_decode_error e); cbn; intros [H|[]]; discriminate H. }
  rewrite bind_lift.
  destruct (@student_info_of_returns w d answers student_name Hd) as (info & ->).
  rewrite bind_pure, bind_lift. cbn [values_method]. rewrite bind_lift.
  rewrite Hgoal, bind_call, Hfalsy. intros _. reflexivity.
Qed.

Lemma missing_career_goal_500_witness :
  do_POST demo_world (post blank_goal_submission) =
    (Response 500 json_content_type
       (Json (PyDict [(u "error", PyStr (u "Failed to extract career goal"))])),
     [CalculateScores (PyDict [(u "question1", PyStr [])]);
      ExtractCareerGoal (dict_values [(u "question1", PyStr [])])]).
Proof.
  apply (@missing_career_goal_500 demo_world (post blank_goal_submission)
           [(u "answers", PyDict [(u "question1", PyStr [])])]
           [(u "question1", PyStr [])]
           (PyStr [])).
  - reflexivity.
  - reflexivity.
  - reflexivity.
  - vm_compute. right. left. reflexivity.
  - reflexivity.
  - right. reflexivity.
Defined.

(* ------------------------------------------------------------------ *)
(** * The unreachable 400 of the download endpoint (lines 263-265) *)

Lemma serve_file_status (w : world) (fuel : nat) (filename : str)
    (sent : response) (t : trace) :
  serve_file w fuel filename = Some (sent, t) ->
  status sent = 500%Z \/ status sent = 404%Z \/ status sent = 200%Z.
Proof.
  unfold serve_file.
  destruct (setup_google_drive w) as [[drive_service|] t0].
  - destruct (download_from_drive w fuel drive_service filename)
      as [[[[file_content mime_type]|] t1]|];
      intros H; inversion H; subst; cbn; auto.
    unfold send_file. repeat destruct (negb _); cbn; auto.
  - intros H; inversion H; subst; cbn; auto.
Qed.

Lemma next_chunks_step (w : world) (downloader : object) (fuel k : nat)
    (got : bytes) :
  next_chunks w downloader (S fuel) k got =
  match next_chunk w downloader k with
  | inl e => Some (call (DriveNextChunk k) (inl e))
  | inr (data, done) =>
      if done then Some (call (DriveNextChunk k) (inr (got ++ data)))
      else
        match next_chunks w downloader fuel (S k) (got ++ data) with
        | Some rest => Some (_ <- call (DriveNextChunk k) (inr tt) ;; rest)
        | None => None
        end
  end.
Proof. reflexivity. Qed.

(** The download loop ends once a chunk ends it. *)
Lemma next_chunks_ends (w : world) (downloader : object) (n : nat) :
  forall (k : nat) (got : bytes),
    ends_at w downloader (k + n) ->
    exists chunks, next_chunks w downloader (S n) k got = Some chunks.
Proof.
  unfold ends_at. induction n as [|n IH]; intros k got Hend.
  - rewrite Nat.add_0_r in Hend. rewrite next_chunks_step.
    destruct (next_chunk w downloader k) as [e|[data done]]; [eauto|].
    subst done. eauto.
  - rewrite next_chunks_step.
    destruct (next_chunk w downloader k) as [e|[data [|]]]; eauto.
    rewrite <- Nat.add_succ_comm in Hend.
    destruct (IH (S k) (got ++ data) Hend) as [chunks ->]. eauto.
Qed.

(** [do_GET] answers every request when the downloads end. *)
Lemma do_GET_responds (w : world) (n : nat) (req : request) :
  (forall downloader, ends_at w downloader n) ->
  exists sent t, do_GET w (S n) req = Some (sent, t).
Proof.
  intros Hend. unfold do_GET.
  destruct (str_eqb _ _); [eauto|].
  destruct (startswith _ _); [|eauto].
  unfold download_report.
  destruct (re_match _ _); [|eauto].
  destruct (unauthorized _); [eauto|].
  unfold serve_file.
  destruct (setup_google_drive w) as [[drive_service|] t0]; [|eauto].
  unfold download_from_drive.
  destruct (locate_file _ _ _) as [[e|[[request mime_type]|]] t1]; eauto.
  destruct (@next_chunks_ends w request n 0%nat [] (Hend request)) as [chunks ->].
  destruct (catch_all _ _) as [[[file_content mime]|] t2]; eauto.
Qed.

(** C9.  For a GET whose path starts with /api/download-report/ the
    pattern of line 263 matches, so the 400 "Invalid file path" of line
    265 is never sent and no response of the endpoint has status 400;
    when the path is exactly the prefix, the captured filename is empty
    and the request goes on to the authorization check: 401 without a
    bearer header, the download of the unquoted empty name with one. *)
Theorem invalid_file_path_unreachable (w : world) (fuel : nat) (req : request) :
  startswith (path req) download_prefix = true ->
  (exists filename, re_match download_pattern (path req) = Some [filename])
  /\ (forall sent t, do_GET w fuel req = Some (sent, t) -> status sent <> 400%Z)
  /\ (path req = download_prefix ->
      re_match download_pattern (path req) = Some [[]]
      /\ do_GET w fuel req =
           if unauthorized (headers_get (headers req) (u "Authorization"))
           then Some (send_error 401 (u "Authorization required"), [])
           else serve_file w fuel (unquote w [])).
Proof.
  intros Hprefix.
  assert (Hhealth := download_path_not_health _ Hprefix).
  destruct (startswith_inv _ _ Hprefix) as [rest Hpath].
  assert (Hmatch := download_pattern_matches rest). rewrite <- Hpath in Hmatch.
  split; [|split].
  - eexists. exact Hmatch.
  - intros sent t. unfold do_GET. rewrite Hhealth, Hprefix.
    unfold download_report. rewrite Hmatch.
    destruct (unauthorized _).
    + intros H; inversion H; subst. discriminate.
    + intros H. apply serve_file_status in H.
      destruct H as [H|[H|H]]; rewrite H; discriminate.
  - intros Hexact. rewrite Hexact in Hpath.
    assert (rest = []) as ->.
    { destruct rest; [reflexivity|].
      apply (f_equal (@List.length N)) in Hpath. rewrite List.length_app in Hpath.
      simpl in Hpath. lia. }
    split; [exact Hmatch|].
    unfold do_GET. rewrite Hhealth, Hprefix.
    unfold download_report. rewrite Hmatch. reflexivity.
Qed.

Lemma invalid_file_path_unreachable_witness :
  (exists filename,
      re_match download_pattern (path bare_download_request) = Some [filename])
  /\ (forall sent t,
         do_GET demo_world 0 bare_download_request = Some (sent, t) ->
         status sent <> 400%Z)
  /\ (path bare_download_request = download_prefix ->
      re_match download_pattern (path bare_download_request) = Some [[]]
      /\ do_GET demo_world 0 bare_download_request =
           if unauthorized (headers_get (headers bare_download_request)
                                        (u "Authorization"))
           then Some (send_error 401 (u "Authorization required"), [])
           else serve_file demo_world 0 (unquote demo_world [])).
Proof.
  apply (@invalid_file_path_unreachable demo_world 0 bare_download_request).
  reflexivity.
Defined.

(** With a bearer header the bare prefix reaches the store: the client
    is set up and the empty name is searched. *)
Example bare_prefix_reaches_the_store :
  do_GET demo_world 1
    (Request download_prefix [(u "authorization", u "Bearer token")]
             (inl (Exn TypeError []))) =
  Some (Response 200
          [(u "Content-type", u "application/pdf");
           (u "Content-Disposition",
             u "attachment; filename=" ++ double_quote ++ double_quote)]
          (Raw [Byte.x25; Byte.x50; Byte.x44; Byte.x46]),
        [Getenv (u "GOOGLE_DRIVE_CREDENTIALS");
         ServiceAccountCredentials (PyDict [(u "type", PyStr (u "service_account"))]);
         DriveBuild 1%N;
         DriveFilesList (u "name='' and trashed=false");
         DriveGetMedia (PyStr (u "f1"));
         DriveNextChunk 0]).
Proof. reflexivity. Qed.

(* ------------------------------------------------------------------ *)
(** * The Drive helpers (lines 36-107) *)

Lemma bind_call' {A B} (ev : event) (a : A) (f : A -> M B) :
  bind (call ev (inr a)) f = after [ev] (f a).
Proof. unfold bind, call, after. now destruct (f a). Qed.

Lemma bind_total {A B} (x : A * trace) (f : A -> M B) :
  bind (total x) f = after (snd x) (f (fst x)).
Proof. unfold bind, total, after. now destruct (f (fst x)). Qed.

Lemma after_after {A} (t1 t2 : trace) (m : M A) :
  after t1 (after t2 m) = after (t1 ++ t2) m.
Proof. unfold after. cbn. now rewrite app_assoc. Qed.

Lemma catch_all_returns {A} (m : M A) (h a : A) (t : trace) :
  catch_all m h = (a, t) ->
  m = (inr a, t) \/ (a = h /\ exists e, m = (inl e, t)).
Proof.
  unfold catch_all. destruct m as [[e|x] t0]; intros H; inversion H; subst;
    eauto.
Qed.

Lemma bind_raises {A B} (m : M A) (f : A -> M B) (e : exn) (t : trace) :
  bind m f = (inl e, t) ->
  m = (inl e, t)
  \/ exists a t1 t2, m = (inr a, t1) /\ f a = (inl e, t2) /\ t = t1 ++ t2.
Proof.
  unfold bind. destruct m as [[e0|a] t1].
  - intros H; inversion H; subst. now left.
  - destruct (f a) as [r t2] eqn:Hf. intros H; inversion H; subst.
    right. now exists a, t1, t2.
Qed.

Lemma setup_google_drive_inv (w : world) (drive_service : object) (t : trace) :
  setup_google_drive w = (Some drive_service, t) ->
  exists text info credentials,
    getenv w credentials_env = Some text
    /\ text <> []
    /\ json_loads w text = inr info
    /\ from_service_account_info w info = inr credentials
    /\ build_drive w credentials = inr drive_service
    /\ t = [Getenv credentials_env; ServiceAccountCredentials info;
            DriveBuild credentials].
Proof.
  unfold setup_google_drive, credentials_env.
  intros H. apply catch_all_returns in H.
  destruct H as [H | [H _]]; [|discriminate H].
  inv_bind H credentials_json Henv. inv_call Henv.
  inversion Henv; subst credentials_json.
  destruct (getenv w _) as [[|c text]|] eqn:Hget;
    try (apply ret_returns in H; destruct H as [H _]; discriminate H).
  inv_bind H info Hinfo. inv_lift Hinfo.
  inv_bind H credentials Hcred. inv_call Hcred.
  inv_bind H drive Hdrive. inv_call Hdrive.
  apply ret_returns in H. destruct H as [H ->]. inversion H; subst drive.
  exists (c :: text), info, credentials. subst.
  repeat split; auto. discriminate.
Qed.

Lemma upload_to_drive_inv (w : world) (drive_service : object)
    (file_content : bytes) (filename : str) (folder_id : option str)
    (result : pyval) (t : trace) :
  upload_to_drive w drive_service file_content filename folder_id = (result, t) ->
  truthy result = true ->
  exists file,
    files_create w drive_service (PyDict (file_metadata_of filename folder_id))
                 file_content = inr (PyDict file)
    /\ permissions_create w drive_service (lookup_default (u "id") file PyNone)
       = inr tt
    /\ result = upload_result_of file
    /\ t = [DriveFilesCreate (PyDict (file_metadata_of filename folder_id))
                             file_content;
            DrivePermissionsCreate (lookup_default (u "id") file PyNone)].
Proof.
  unfold upload_to_drive. fold (file_metadata_of filename folder_id).
  intros H Htruthy. apply catch_all_returns in H.
  destruct H as [H | [-> _]]; [|discriminate Htruthy].
  cbv zeta in H.
  inv_bind H file Hfile. inv_call Hfile.
  inv_bind H file_id Hid. inv_lift Hid.
  destruct file as [| | | | | |entries]; try discriminate Hid.
  cbn [get] in Hid. inversion Hid; subst file_id.
  inv_bind H done Hperm. inv_call Hperm. destruct done.
  inv_bind H id1 Hid'. inv_lift Hid'. cbn [get] in Hid'. inversion Hid'; subst id1.
  inv_bind H link Hlink. inv_lift Hlink. cbn [get] in Hlink.
  inversion Hlink; subst link.
  apply ret_returns in H. destruct H as [<- ->]. subst.
  exists entries. repeat split; auto.
Qed.

(** X1.  [setup_google_drive] returns a client exactly when the
    credentials variable is set and not empty, its text parses, the
    credentials are accepted and the client is built; the calls are then
    the environment lookup, the credentials and the build, in that
    order. *)
Theorem setup_google_drive_succeeds_iff (w : world) (drive_service : object)
    (t : trace) :
  setup_google_drive w = (Some drive_service, t) <->
  exists text info credentials,
    getenv w credentials_env = Some text
    /\ text <> []
    /\ json_loads w text = inr info
    /\ from_service_account_info w info = inr credentials
    /\ build_drive w credentials = inr drive_service
    /\ t = [Getenv credentials_env; ServiceAccountCredentials info;
            DriveBuild credentials].
Proof.
  split; [apply setup_google_drive_inv|].
  unfold setup_google_drive, credentials_env.
  - intros (text & info & credentials & Henv & Hne & Hinfo & Hcred & Hdrive & ->).
    rewrite Henv. destruct text as [|c text]; [contradiction|].
    rewrite bind_call'. cbv beta iota.
    rewrite Hinfo, bind_lift, Hcred, bind_call', Hdrive, bind_call'.
    reflexivity.
Qed.

(** X2.  [upload_to_drive] returns a result that is not [None] exactly
    when the create call answered a dict and the permission call
    succeeded; the result is then the dict of the answer's id and
    webViewLink ([None] for a key the answer lacks), and the calls are
    the create and then the permission for that id. *)
Theorem upload_to_drive_succeeds_iff (w : world) (drive_service : object)
    (file_content : bytes) (filename : str) (folder_id : option str)
    (result : pyval) (t : trace) :
  (upload_to_drive w drive_service file_content filename folder_id = (result, t)
   /\ truthy result = true) <->
  exists file,
    files_create w drive_service (PyDict (file_metadata_of filename folder_id))
                 file_content = inr (PyDict file)
    /\ permissions_create w drive_service (lookup_default (u "id") file PyNone)
       = inr tt
    /\ result = upload_result_of file
    /\ t = [DriveFilesCreate (PyDict (file_metadata_of filename folder_id))
                             file_content;
            DrivePermissionsCreate (lookup_default (u "id") file PyNone)].
Proof.
  split; [intros [H Htruthy]; now apply upload_to_drive_inv|].
  unfold upload_to_drive. fold (file_metadata_of filename folder_id).
  - intros (file & Hfile & Hperm & -> & ->). split; [|reflexivity].
    cbv zeta. rewrite Hfile, bind_call'. cbn [get]. rewrite bind_lift.
    fold (lookup_default (u "id") file PyNone). rewrite Hperm, bind_call'.
    rewrite !bind_lift. reflexivity.
Qed.

(** X3.  When the create call succeeds and the permission call raises,
    [upload_to_drive] returns [None] although the file has been created:
    both calls are in the trace. *)
Theorem upload_permission_failure (w : world) (drive_service : object)
    (file_content : bytes) (filename : str) (folder_id : option str)
    (file : list (str * pyval)) (e : exn) :
  files_create w drive_service (PyDict (file_metadata_of filename folder_id))
               file_content = inr (PyDict file) ->
  permissions_create w drive_service (lookup_default (u "id") file PyNone)
  = inl e ->
  upload_to_drive w drive_service file_content filename folder_id =
    (PyNone,
     [DriveFilesCreate (PyDict (file_metadata_of filename folder_id)) file_content;
      DrivePermissionsCreate (lookup_default (u "id") file PyNone)]).
Proof.
  intros Hfile Hperm.
  unfold upload_to_drive. fold (file_metadata_of filename folder_id).
  cbv zeta. rewrite Hfile, bind_call'. cbn [get]. rewrite bind_lift.
  fold (lookup_default (u "id") file PyNone). rewrite Hperm. reflexivity.
Qed.

Lemma upload_permission_failure_witness :
  upload_to_drive unshareable_world 2%N [Byte.x25] (u "Asha_Career_Report.pdf")
                  (Some (u "folder7")) =
    (PyNone,
     [DriveFilesCreate
        (PyDict (file_metadata_of (u "Asha_Career_Report.pdf") (Some (u "folder7"))))
        [Byte.x25];
      DrivePermissionsCreate
        (lookup_default (u "id")
           [(u "id", PyStr (u "f1"));
            (u "name", PyStr (u "Asha_Career_Report.pdf"));
            (u "mimeType", PyStr (u "application/pdf"));
            (u "webViewLink", PyStr (u "https://drive.google.com/file/d/f1/view"))]
           PyNone)]).
Proof.
  apply (@upload_permission_failure unshareable_world 2%N [Byte.x25]
           (u "Asha_Career_Report.pdf") (Some (u "folder7"))
           [(u "id", PyStr (u "f1"));
            (u "name", PyStr (u "Asha_Career_Report.pdf"));
            (u "mimeType", PyStr (u "application/pdf"));
            (u "webViewLink", PyStr (u "https://drive.google.com/file/d/f1/view"))]
           quota_exceeded).
  - reflexivity.
  - reflexivity.
Defined.

(** X4.  The metadata of the create call names the file, declares it a
    PDF, and lists the folder as parent exactly when a folder id is
    given and not empty; an empty folder id is treated as none. *)
Theorem upload_metadata (w : world) (drive_service : object)
    (file_content : bytes) (filename : str) (folder_id : option str) :
  exists metadata rest,
    snd (upload_to_drive w drive_service file_content filename folder_id)
    = DriveFilesCreate (PyDict metadata) file_content :: rest
    /\ lookup (u "name") metadata = Some (PyStr filename)
    /\ lookup (u "mimeType") metadata = Some (PyStr (u "application/pdf"))
    /\ lookup (u "parents") metadata =
       match folder_id with
       | Some (c :: f) => Some (PyList [PyStr (c :: f)])
       | _ => None
       end.
Proof.
  unfold upload_to_drive. cbv zeta.
  set (metadata := _ ++ _).
  exists metadata.
  assert (Hfirst : forall (f : pyval -> M pyval),
             exists rest,
               snd (catch_all
                      (bind (call (DriveFilesCreate (PyDict metadata) file_content)
                               (files_create w drive_service (PyDict metadata)
                                             file_content)) f) PyNone)
               = DriveFilesCreate (PyDict metadata) file_content :: rest).
  { intros f. destruct (files_create _ _ _ _) as [e|file].
    - now exists [].
    - rewrite bind_call'. unfold after, catch_all.
      destruct (f file) as [[e|r] t]; cbn; eauto. }
  destruct (Hfirst (fun file =>
      file_id <- lift (get file (u "id") PyNone) ;;
      _ <- call (DrivePermissionsCreate file_id)
                (permissions_create w drive_service file_id) ;;
      id <- lift (get file (u "id") PyNone) ;;
      link <- lift (get file (u "webViewLink") PyNone) ;;
      ret (PyDict [(u "id", id); (u "webViewLink", link)]))) as [rest Hrest].
  exists rest. split; [exact Hrest|].
  subst metadata. destruct folder_id as [[|c f]|]; repeat split; reflexivity.
Qed.

(* ------------------------------------------------------------------ *)
(** * The download from the store (lines 109-151) *)

Lemma next_chunks_done (w : world) (downloader : object) (datas : list bytes)
    (final : bytes) :
  forall (k fuel : nat) (got : bytes),
    (forall j data, nth_error datas j = Some data ->
                    next_chunk w downloader (k + j) = inr (data, false)) ->
    next_chunk w downloader (k + List.length datas) = inr (final, true) ->
    (List.length datas < fuel)%nat ->
    next_chunks w downloader fuel k got =
      Some (inr (got ++ List.concat datas ++ final),
            map DriveNextChunk (seq k (S (List.length datas)))).
Proof.
  induction datas as [|data datas IH]; intros k fuel got Hdatas Hfinal Hfuel;
    (destruct fuel as [|fuel]; [cbn in Hfuel; lia|]); rewrite next_chunks_step.
  - cbn in Hfinal. rewrite Nat.add_0_r in Hfinal. now rewrite Hfinal.
  - pose proof (Hdatas 0%nat data eq_refl) as Hfirst.
    rewrite Nat.add_0_r in Hfirst. rewrite Hfirst.
    rewrite (IH (S k) fuel (got ++ data)).
    + cbn. now rewrite <- !app_assoc.
    + intros j d Hj. rewrite <- (Hdatas (S j) d Hj). f_equal. lia.
    + rewrite <- Hfinal. f_equal. cbn. lia.
    + cbn in Hfuel. lia.
Qed.

Lemma next_chunks_raised (w : world) (downloader : object) (datas : list bytes)
    (e : exn) :
  forall (k fuel : nat) (got : bytes),
    (forall j data, nth_error datas j = Some data ->
                    next_chunk w downloader (k + j) = inr (data, false)) ->
    next_chunk w downloader (k + List.length datas) = inl e ->
    (List.length datas < fuel)%nat ->
    next_chunks w downloader fuel k got =
      Some (inl e, map DriveNextChunk (seq k (S (List.length datas)))).
Proof.
  induction datas as [|data datas IH]; intros k fuel got Hdatas Hfinal Hfuel;
    (destruct fuel as [|fuel]; [cbn in Hfuel; lia|]); rewrite next_chunks_step.
  - cbn in Hfinal. rewrite Nat.add_0_r in Hfinal. now rewrite Hfinal.
  - pose proof (Hdatas 0%nat data eq_refl) as Hfirst.
    rewrite Nat.add_0_r in Hfirst. rewrite Hfirst.
    rewrite (IH (S k) fuel (got ++ data)).
    + reflexivity.
    + intros j d Hj. rewrite <- (Hdatas (S j) d Hj). f_equal. lia.
    + rewrite <- Hfinal. f_equal. cbn. lia.
    + cbn in Hfuel. lia.
Qed.

(** The search finds a file: the first match is the one requested. *)
Lemma locate_file_found (w : world) (drive_service : object) (filename : str)
    (found first : list (str * pyval)) (others : list pyval)
    (file_id mime_type : pyval) (request : object) :
  files_list w drive_service (download_query filename) = inr (PyDict found) ->
  lookup (u "files") found = Some (PyList (PyDict first :: others)) ->
  lookup (u "id") first = Some file_id ->
  lookup (u "mimeType") first = Some mime_type ->
  get_media w drive_service file_id = inr request ->
  locate_file w drive_service filename =
    (inr (Some (request, mime_type)),
     [DriveFilesList (download_query filename); DriveGetMedia file_id]).
Proof.
  intros Hlist Hfiles Hid Hmime Hmedia.
  unfold locate_file. fold (download_query filename). cbv zeta.
  rewrite Hlist, bind_call'. cbn [get]. rewrite Hfiles, bind_lift.
  cbn [truthy negb getitem0]. rewrite bind_lift.
  rewrite (getitem_lookup _ _ Hid), bind_lift, bind_lift.
  rewrite (getitem_lookup _ _ Hmime), bind_lift.
  rewrite Hmedia, bind_call'. reflexivity.
Qed.

(** X5.  [download_from_drive] fetches the first file the search
    returns, and its content is the chunks joined in the order they
    arrive, up to the chunk that reports the end; the calls are the
    search, the media request and one call per chunk. *)
Theorem download_from_drive_joins_chunks (w : world) (fuel : nat)
    (drive_service : object) (filename : str)
    (found first : list (str * pyval)) (others : list pyval)
    (file_id mime_type : pyval) (request : object)
    (datas : list bytes) (final : bytes) :
  files_list w drive_service (download_query filename) = inr (PyDict found) ->
  lookup (u "files") found = Some (PyList (PyDict first :: others)) ->
  lookup (u "id") first = Some file_id ->
  lookup (u "mimeType") first = Some mime_type ->
  get_media w drive_service file_id = inr request ->
  (forall j data, nth_error datas j = Some data ->
                  next_chunk w request j = inr (data, false)) ->
  next_chunk w request (List.length datas) = inr (final, true) ->
  (List.length datas < fuel)%nat ->
  download_from_drive w fuel drive_service filename =
    Some (Some (List.concat datas ++ final, mime_type),
          [DriveFilesList (download_query filename); DriveGetMedia file_id]
          ++ map DriveNextChunk (seq 0 (S (List.length datas)))).
Proof.
  intros Hlist Hfiles Hid Hmime Hmedia Hdatas Hfinal Hfuel.
  unfold download_from_drive.
  rewrite (@locate_file_found w drive_service filename found first others
             file_id mime_type request Hlist Hfiles Hid Hmime Hmedia).
  rewrite (@next_chunks_done w request datas final 0%nat fuel []
             Hdatas Hfinal Hfuel).
  unfold bind, ret, catch_all. rewrite ?app_nil_r. reflexivity.
Qed.

Lemma download_from_drive_joins_chunks_witness :
  download_from_drive chunked_world 5 2%N (u "Asha_Career_Report.pdf") =
    Some (Some (List.concat [pdf_head] ++ pdf_tail, PyStr (u "application/pdf")),
          [DriveFilesList (download_query (u "Asha_Career_Report.pdf"));
           DriveGetMedia (PyStr (u "f1"))]
          ++ map DriveNextChunk (seq 0 (S (List.length [pdf_head])))).
Proof.
  apply (@download_from_drive_joins_chunks chunked_world 5 2%N
           (u "Asha_Career_Report.pdf")
           [(u "files", PyList [stored_file])]
           [(u "id", PyStr (u "f1"));
            (u "name", PyStr (u "Asha_Career_Report.pdf"));
            (u "mimeType", PyStr (u "application/pdf"));
            (u "webViewLink", PyStr (u "https://drive.google.com/file/d/f1/view"))]
           [] (PyStr (u "f1")) (PyStr (u "application/pdf")) 3%N
           [pdf_head] pdf_tail).
  - reflexivity.
  - reflexivity.
  - reflexivity.
  - reflexivity.
  - reflexivity.
  - intros [|[|j]] data Hj; cbn in Hj; try discriminate Hj.
    inversion Hj; subst data. reflexivity.
  - reflexivity.
  - cbn. lia.
Defined.

(** X6.  When a chunk raises, [download_from_drive] returns
    [(None, None)]: what was downloaded before is dropped. *)
Theorem download_from_drive_chunk_failure (w : world) (fuel : nat)
    (drive_service : object) (filename : str)
    (found first : list (str * pyval)) (others : list pyval)
    (file_id mime_type : pyval) (request : object)
    (datas : list bytes) (e : exn) :
  files_list w drive_service (download_query filename) = inr (PyDict found) ->
  lookup (u "files") found = Some (PyList (PyDict first :: others)) ->
  lookup (u "id") first = Some file_id ->
  lookup (u "mimeType") first = Some mime_type ->
  get_media w drive_service file_id = inr request ->
  (forall j data, nth_error datas j = Some data ->
                  next_chunk w request j = inr (data, false)) ->
  next_chunk w request (List.length datas) = inl e ->
  (List.length datas < fuel)%nat ->
  download_from_drive w fuel drive_service filename =
    Some (None,
          [DriveFilesList (download_query filename); DriveGetMedia file_id]
          ++ map DriveNextChunk (seq 0 (S (List.length datas)))).
Proof.
  intros Hlist Hfiles Hid Hmime Hmedia Hdatas Hfinal Hfuel.
  unfold download_from_drive.
  rewrite (@locate_file_found w drive_service filename found first others
             file_id mime_type request Hlist Hfiles Hid Hmime Hmedia).
  rewrite (@next_chunks_raised w request datas e 0%nat fuel []
             Hdatas Hfinal Hfuel).
  unfold bind, ret, catch_all. rewrite ?app_nil_r. reflexivity.
Qed.

Lemma download_from_drive_chunk_failure_witness :
  download_from_drive broken_download_world 5 2%N (u "Asha_Career_Report.pdf") =
    Some (None,
          [DriveFilesList (download_query (u "Asha_Career_Report.pdf"));
           DriveGetMedia (PyStr (u "f1"))]
          ++ map DriveNextChunk (seq 0 (S (List.length [pdf_head])))).
Proof.
  apply (@download_from_drive_chunk_failure broken_download_world 5 2%N
           (u "Asha_Career_Report.pdf")
           [(u "files", PyList [stored_file])]
           [(u "id", PyStr (u "f1"));
            (u "name", PyStr (u "Asha_Career_Report.pdf"));
            (u "mimeType", PyStr (u "application/pdf"));
            (u "webViewLink", PyStr (u "https://drive.google.com/file/d/f1/view"))]
           [] (PyStr (u "f1")) (PyStr (u "application/pdf")) 3%N
           [pdf_head] quota_exceeded).
  - reflexivity.
  - reflexivity.
  - reflexivity.
  - reflexivity.
  - reflexivity.
  - intros [|[|j]] data Hj; cbn in Hj; try discriminate Hj.
    inversion Hj; subst data. reflexivity.
  - reflexivity.
  - cbn. lia.
Defined.

(** X7.  When the search answers no file (the "files" key is absent or
    its value is empty), [download_from_drive] returns [(None, None)]
    after the search alone: no media is requested and no chunk is read,
    whatever the fuel. *)
Theorem download_from_drive_no_match (w : world) (fuel : nat)
    (drive_service : object) (filename : str) (found : list (str * pyval)) :
  files_list w drive_service (download_query filename) = inr (PyDict found) ->
  truthy (lookup_default (u "files") found (PyList [])) = false ->
  download_from_drive w fuel drive_service filename =
    Some (None, [DriveFilesList (download_query filename)]).
Proof.
  intros Hlist Hfiles.
  unfold download_from_drive, locate_file. fold (download_query filename).
  cbv zeta. rewrite Hlist, bind_call'. cbn [get].
  fold (lookup_default (u "files") found (PyList [])).
  rewrite bind_lift, Hfiles. reflexivity.
Qed.

Lemma download_from_drive_no_match_witness :
  download_from_drive empty_store_world 0 2%N (u "foo.pdf") =
    Some (None, [DriveFilesList (download_query (u "foo.pdf"))]).
Proof.
  apply (@download_from_drive_no_match empty_store_world 0 2%N (u "foo.pdf")
           [(u "files", PyList [])]).
  - reflexivity.
  - reflexivity.
Defined.

(* ------------------------------------------------------------------ *)
(** * The GET endpoints (lines 247-301) *)

Lemma bearer_is_authorized (h : str) :
  startswith h (u "Bearer ") = true -> unauthorized (Some h) = false.
Proof.
  intros H. unfold unauthorized. rewrite H.
  destruct h; [discriminate H|reflexivity].
Qed.

Lemma unauthorized_inv (auth_header : option str) :
  unauthorized auth_header = false ->
  exists h, auth_header = Some h /\ startswith h (u "Bearer ") = true.
Proof.
  unfold unauthorized. destruct auth_header as [[|c h]|]; try discriminate.
  intros H. apply negb_false_iff in H. eauto.
Qed.

Lemma setup_google_drive_first_call (w : world) :
  exists rest, snd (setup_google_drive w) = Getenv credentials_env :: rest.
Proof.
  unfold setup_google_drive. rewrite bind_call'.
  destruct (match getenv w _ with None => _ | Some _ => _ end) as [[e|r] t];
    cbn; eauto.
Qed.

(** X8.  An authorised download whose Drive search raises is answered
    404 "File not found", not 500: the helper turns every Drive failure
    into a missing file.  The search is made with the unquoted name. *)
Theorem download_drive_error_is_404 (w : world) (fuel : nat) (req : request)
    (rest token : str) (drive_service : object) (t0 : trace) (e : exn) :
  path req = download_prefix ++ rest ->
  headers_get (headers req) (u "Authorization") = Some token ->
  startswith token (u "Bearer ") = true ->
  setup_google_drive w = (Some drive_service, t0) ->
  files_list w drive_service (download_query (unquote w (first_line rest)))
  = inl e ->
  do_GET w fuel req =
    Some (Response 404 json_content_type
            (Json (PyDict [(u "error", PyStr (u "File not found"))])),
          t0 ++ [DriveFilesList (download_query (unquote w (first_line rest)))]).
Proof.
  intros Hpath Hauth Hbearer Hsetup Hlist.
  unfold do_GET. rewrite Hpath.
  rewrite download_path_not_health by apply startswith_app.
  rewrite startswith_app.
  unfold download_report. rewrite Hpath, download_pattern_matches.
  rewrite Hauth, (bearer_is_authorized _ Hbearer).
  unfold serve_file. rewrite Hsetup.
  unfold download_from_drive, locate_file, group1. cbn [nth].
  fold (download_query (unquote w (first_line rest))).
  cbv zeta. rewrite Hlist. reflexivity.
Qed.

Lemma download_drive_error_is_404_witness :
  do_GET failing_search_world 1 (download_request (u "foo.pdf") (u "Bearer abc")) =
    Some (Response 404 json_content_type
            (Json (PyDict [(u "error", PyStr (u "File not found"))])),
          [Getenv credentials_env;
           ServiceAccountCredentials (PyDict [(u "type", PyStr (u "service_account"))]);
           DriveBuild 1%N]
          ++ [DriveFilesList
                (download_query (unquote failing_search_world
                                         (first_line (u "foo.pdf"))))]).
Proof.
  apply (@download_drive_error_is_404 failing_search_world 1
           (download_request (u "foo.pdf") (u "Bearer abc"))
           (u "foo.pdf") (u "Bearer abc") 2%N
           [Getenv credentials_env;
            ServiceAccountCredentials (PyDict [(u "type", PyStr (u "service_account"))]);
            DriveBuild 1%N]
           quota_exceeded).
  - reflexivity.
  - reflexivity.
  - reflexivity.
  - reflexivity.
  - reflexivity.
Defined.

(** X9.  Every response of [do_GET] has status 200, 401, 404 or 500. *)
Theorem do_GET_status (w : world) (fuel : nat) (req : request)
    (sent : response) (t : trace) :
  do_GET w fuel req = Some (sent, t) ->
  status sent = 200%Z \/ status sent = 401%Z \/ status sent = 404%Z
  \/ status sent = 500%Z.
Proof.
  unfold do_GET.
  destruct (str_eqb _ _).
  { intros H; inversion H; subst. cbn. auto. }
  destruct (startswith (path req) download_prefix) eqn:Hprefix.
  2:{ intros H; inversion H; subst. cbn. auto. }
  destruct (startswith_inv _ _ Hprefix) as [rest Hpath].
  unfold download_report. rewrite Hpath, download_pattern_matches.
  destruct (unauthorized _).
  { intros H; inversion H; subst. cbn. auto. }
  intros H. apply serve_file_status in H. tauto.
Qed.

Lemma do_GET_status_witness :
  status health_response = 200%Z \/ status health_response = 401%Z
  \/ status health_response = 404%Z \/ status health_response = 500%Z.
Proof.
  apply (@do_GET_status demo_world 0
           (Request (u "/api/health") [] (inl (Exn TypeError [])))
           health_response []).
  reflexivity.
Defined.

(** X10.  The download endpoint checks only that the Authorization
    header begins with "Bearer ": two requests for the same path whose
    headers both do are answered alike, whatever the tokens. *)
Theorem bearer_token_not_inspected (w : world) (fuel : nat)
    (req1 req2 : request) (token1 token2 : str) :
  path req1 = path req2 ->
  headers_get (headers req1) (u "Authorization") = Some token1 ->
  headers_get (headers req2) (u "Authorization") = Some token2 ->
  startswith token1 (u "Bearer ") = true ->
  startswith token2 (u "Bearer ") = true ->
  do_GET w fuel req1 = do_GET w fuel req2.
Proof.
  intros Hpath H1 H2 Hb1 Hb2.
  unfold do_GET, download_report. rewrite Hpath, H1, H2.
  now rewrite (bearer_is_authorized _ Hb1), (bearer_is_authorized _ Hb2).
Qed.

Lemma bearer_token_not_inspected_witness :
  do_GET demo_world 2 (download_request (u "Asha_Career_Report.pdf") (u "Bearer good"))
  = do_GET demo_world 2 (download_request (u "Asha_Career_Report.pdf") (u "Bearer "))
.
Proof.
  apply (@bearer_token_not_inspected demo_world 2
           (download_request (u "Asha_Career_Report.pdf") (u "Bearer good"))
           (download_request (u "Asha_Career_Report.pdf") (u "Bearer "))
           (u "Bearer good") (u "Bearer ")); reflexivity.
Defined.

(** X11.  [do_GET] calls nothing outside the file unless the path is
    under /api/download-report/ and the Authorization header begins
    with "Bearer "; its first call is then the lookup of the Drive
    credentials. *)
Theorem storage_needs_bearer (w : world) (fuel : nat) (req : request)
    (sent : response) (t : trace) :
  do_GET w fuel req = Some (sent, t) ->
  t <> [] ->
  startswith (path req) download_prefix = true
  /\ (exists token,
        headers_get (headers req) (u "Authorization") = Some token
        /\ startswith token (u "Bearer ") = true)
  /\ exists rest, t = Getenv credentials_env :: rest.
Proof.
  unfold do_GET.
  destruct (str_eqb _ _).
  { intros H Hne; inversion H; subst. contradiction. }
  destruct (startswith (path req) download_prefix) eqn:Hprefix.
  2:{ intros H Hne; inversion H; subst. contradiction. }
  destruct (startswith_inv _ _ Hprefix) as [rest Hpath].
  unfold download_report. rewrite Hpath, download_pattern_matches.
  destruct (unauthorized _) eqn:Hauth.
  { intros H Hne; inversion H; subst. contradiction. }
  intros H _. split; [reflexivity|]. split; [now apply unauthorized_inv|].
  unfold serve_file in H.
  destruct (setup_google_drive_first_call w) as [t1 Hfirst].
  destruct (setup_google_drive w) as [[drive_service|] t0]; cbn [snd] in Hfirst;
    subst t0.
  - destruct (download_from_drive _ _ _ _) as [[[[c m]|] t2]|];
      inversion H; subst; cbn; eauto.
  - inversion H; subst. eauto.
Qed.

Lemma storage_needs_bearer_witness :
  startswith (path (download_request (u "foo.pdf") (u "Bearer abc")))
             download_prefix = true
  /\ (exists token,
        headers_get (headers (download_request (u "foo.pdf") (u "Bearer abc")))
                    (u "Authorization") = Some token
        /\ startswith token (u "Bearer ") = true)
  /\ exists rest,
       [Getenv credentials_env;
        ServiceAccountCredentials (PyDict [(u "type", PyStr (u "service_account"))]);
        DriveBuild 1%N;
        DriveFilesList (download_query (u "foo.pdf"))]
       = Getenv credentials_env :: rest.
Proof.
  apply (@storage_needs_bearer failing_search_world 1
           (download_request (u "foo.pdf") (u "Bearer abc"))
           (send_error 404 (u "File not found"))
           [Getenv credentials_env;
            ServiceAccountCredentials (PyDict [(u "type", PyStr (u "service_account"))]);
            DriveBuild 1%N;
            DriveFilesList (download_query (u "foo.pdf"))]).
  - reflexivity.
  - discriminate.
Defined.

(* ------------------------------------------------------------------ *)
(** * The submission pipeline (lines 154-245) *)

Lemma send_error_inj (c c' : Z) (m m' : str) :
  send_error c m = send_error c' m' -> c = c' /\ m = m'.
Proof. unfold send_error. intros H; inversion H; auto. Qed.

Lemma student_info_of_dict (w : world) (d a : list (str * pyval))
    (student_name : str) :
  lookup (u "answers") d = Some (PyDict a) ->
  student_info_of w (PyDict d) student_name
  = (inr (student_info_dict w d a student_name), []).
Proof.
  intros Hd. unfold student_info_of. cbn [get].
  rewrite !bind_lift. rewrite Hd. cbn [get]. rewrite !bind_lift.
  reflexivity.
Qed.

(** The ways the [try] block of [do_POST] returns, with what each stage
    held and the calls made. *)
Lemma submit_assessment_returns (w : world) (req : request) (sent : response)
    (t : trace) :
  submit_assessment w req = (inr sent, t) ->
  (sent = send_error 400 (u "Missing answers data") /\ t = [])
  \/ (sent = send_error 400 (u "Invalid answers format") /\ t = [])
  \/ exists d a trait_scores student_name career_goal,
       body req = inr (PyDict d)
       /\ lookup (u "answers") d = Some (PyDict a)
       /\ calculate_scores w (PyDict a) = inr trait_scores
       /\ strip_method (lookup_default (u "studentName") d (PyStr (u "Student")))
          = inr student_name
       /\ extract_career_goal w (dict_values a) = inr career_goal
       /\ ((truthy career_goal = false
            /\ sent = send_error 500 (u "Failed to extract career goal")
            /\ t = [CalculateScores (PyDict a); ExtractCareerGoal (dict_values a)])
           \/ (truthy career_goal = true
               /\ exists sections,
                   generate_topic_reports w
                     (strip (context_of w trait_scores
                               (student_info_dict w d a student_name)))
                     career_goal (PyStr student_name) = inr sections
                   /\ ((truthy sections = false
                        /\ sent = send_error 500
                                    (u "Failed to generate report sections")
                        /\ t = [CalculateScores (PyDict a);
                                ExtractCareerGoal (dict_values a);
                                GenerateTopicReports
                                  (strip (context_of w trait_scores
                                            (student_info_dict w d a student_name)))
                                  career_goal (PyStr student_name)])
                       \/ (truthy sections = true
                           /\ exists report_data pdf_content,
                               build_report_data w (PyStr student_name)
                                 career_goal sections = inr report_data
                               /\ generate_pdf_report w report_data = inr pdf_content
                               /\ ((fst (setup_google_drive w) = None
                                    /\ sent = send_error 500
                                         (u "Failed to initialize Google Drive API")
                                    /\ t = rendering_trace w d a trait_scores
                                             student_name career_goal sections
                                             report_data
                                           ++ snd (setup_google_drive w))
                                   \/ exists drive_service upload_result t_up,
                                       fst (setup_google_drive w) = Some drive_service
                                       /\ upload_to_drive w drive_service pdf_content
                                            (pdf_filename_of student_name)
                                            (getenv w folder_env)
                                          = (upload_result, t_up)
                                       /\ t = rendering_trace w d a trait_scores
                                                student_name career_goal sections
                                                report_data
                                              ++ snd (setup_google_drive w)
                                              ++ [Getenv folder_env] ++ t_up
                                       /\ ((truthy upload_result = false
                                            /\ sent = send_error 500
                                                 (u "Failed to upload PDF to Google Drive"))
                                           \/ (truthy upload_result = true
                                               /\ exists report_url file_id,
                                                   getitem upload_result (u "webViewLink")
                                                   = inr report_url
                                                   /\ getitem upload_result (u "id")
                                                      = inr file_id
                                                   /\ sent =
                                                      Response 200 json_content_type
                                                        (Json (success_body report_url
                                                                 file_id
                                                                 (pdf_filename_of student_name)
                                                                 student_name
                                                                 career_goal))))))))).
Proof.
  intros Hs. unfold submit_assessment in Hs.
  inv_bind Hs data Hdata. inv_lift Hdata.
  apply bind_returns in Hs.
  destruct Hs as (missing & tm & trest & Hmissing & Hs & Htm).
  assert (Hquiet : tm = []).
  { destruct (truthy data); cbn [negb] in Hmissing.
    - inv_bind Hmissing present Hpresent. inv_lift Hpresent.
      apply ret_returns in Hmissing. destruct Hmissing as [_ ->]. now subst.
    - apply ret_returns in Hmissing. now destruct Hmissing as [_ ->]. }
  clear Hmissing.
  destruct missing.
  { apply ret_returns in Hs. destruct Hs as [<- ->]. left. now subst. }
  inv_bind Hs answers Hanswers. inv_lift Hanswers.
  destruct (isinstance_dict answers) eqn:Hisdict; cbn [negb] in Hs.
  2:{ apply ret_returns in Hs. destruct Hs as [<- ->]. right; left. now subst. }
  destruct answers as [| | | | | |a]; try discriminate Hisdict.
  apply getitem_dict in Hanswers. destruct Hanswers as (d & -> & Hd).
  inv_bind Hs answers1 Hanswers1. inv_lift Hanswers1.
  rewrite (getitem_lookup _ _ Hd) in Hanswers1. inversion Hanswers1; subst answers1.
  inv_bind Hs trait_scores Hscores. inv_call Hscores.
  inv_bind Hs name_field Hname. inv_lift Hname.
  cbn [get] in Hname. inversion Hname; subst name_field.
  fold (lookup_default (u "studentName") d (PyStr (u "Student"))) in *.
  inv_bind Hs student_name Hstrip. inv_lift Hstrip.
  rewrite (@student_info_of_dict w d a student_name Hd), bind_pure in Hs.
  inv_bind Hs answers2 Hanswers2. inv_lift Hanswers2.
  rewrite (getitem_lookup _ _ Hd) in Hanswers2. inversion Hanswers2; subst answers2.
  inv_bind Hs values Hvalues. inv_lift Hvalues.
  inversion Hvalues; subst values.
  inv_bind Hs career_goal Hgoal. inv_call Hgoal.
  right; right.
  exists d, a, trait_scores, student_name, career_goal.
  do 5 (split; [assumption|]).
  destruct (truthy career_goal) eqn:Htruthy; cbn [negb] in Hs.
  2:{ apply ret_returns in Hs. destruct Hs as [<- ->]. left. subst.
      now repeat split. }
  right. split; [reflexivity|].
  cbv zeta in Hs.
  inv_bind Hs name Hn. inv_lift Hn. cbn in Hn. inversion Hn; subst name.
  inv_bind Hs sections Hsections. inv_call Hsections.
  exists sections. split; [assumption|].
  destruct (truthy sections) eqn:Hsec; cbn [negb] in Hs.
  2:{ apply ret_returns in Hs. destruct Hs as [<- ->]. left. subst.
      now repeat split. }
  right. split; [reflexivity|].
  inv_bind Hs name' Hn'. inv_lift Hn'. cbn in Hn'. inversion Hn'; subst name'.
  inv_bind Hs report_data Hreport. inv_call Hreport.
  inv_bind Hs pdf_content Hpdf. inv_call Hpdf.
  exists report_data, pdf_content. do 2 (split; [assumption|]).
  inv_bind Hs drive Hdrive. apply total_returns in Hdrive.
  rewrite Hdrive. cbn [fst snd].
  destruct drive as [drive_service|].
  2:{ apply ret_returns in Hs. destruct Hs as [<- ->]. left. subst.
      repeat split. unfold rendering_trace. cbn [app].
      now rewrite ?app_nil_r. }
  right.
  inv_bind Hs folder_id Hfolder. inv_call Hfolder.
  inversion Hfolder; subst folder_id.
  inv_bind Hs upload_result Hupload. apply total_returns in Hupload.
  exists drive_service, upload_result. eexists.
  split; [reflexivity|]. split; [exact Hupload|].
  destruct (truthy upload_result) eqn:Hup; cbn [negb] in Hs.
  2:{ apply ret_returns in Hs. destruct Hs as [<- ->]. subst.
      split; [unfold rendering_trace; cbn [app]; now rewrite ?app_nil_r|].
      left. now split. }
  inv_bind Hs report_url Hurl. inv_lift Hurl.
  inv_bind Hs file_id Hfid. inv_lift Hfid.
  apply ret_returns in Hs. destruct Hs as [<- ->]. subst.
  split; [unfold rendering_trace; cbn [app]; now rewrite ?app_nil_r|].
  right. split; [reflexivity|]. now exists report_url, file_id.
Qed.

(** What [do_POST] sends: the 404 of an unknown path, the response of
    the [try] block, or the response of an [except] clause. *)
Lemma do_POST_returns (w : world) (req : request) :
  (path req <> submit_path /\ do_POST w req = (route_not_found, []))
  \/ (path req = submit_path
      /\ ((exists sent t, submit_assessment w req = (inr sent, t)
                          /\ do_POST w req = (sent, t))
          \/ (exists e t, submit_assessment w req = (inl e, t)
                          /\ do_POST w req =
                             (if is_json_decode_error e
                              then send_error 400 (u "Invalid JSON data")
                              else send_error 500
                                     (u "Assessment processing failed: "
                                      ++ exn_str e), t)))).
Proof.
  unfold do_POST. fold submit_path.
  destruct (str_eqb (path req) submit_path) eqn:Hpath; cbn [negb].
  - apply str_eqb_eq in Hpath. right. split; [assumption|].
    destruct (submit_assessment w req) as [[e|sent] t].
    + right. exists e, t. split; [reflexivity|].
      now destruct (is_json_decode_error e).
    + left. now exists sent, t.
  - apply str_eqb_neq in Hpath. now left.
Qed.

(** X12.  Every response of [do_POST] has status 200, 400, 404 or
    500. *)
Theorem do_POST_status (w : world) (req : request) :
  status (fst (do_POST w req)) = 200%Z
  \/ status (fst (do_POST w req)) = 400%Z
  \/ status (fst (do_POST w req)) = 404%Z
  \/ status (fst (do_POST w req)) = 500%Z.
Proof.
  destruct (do_POST_returns w req)
    as [[_ ->] | [_ [(sent & t & Hs & ->) | (e & t & _ & ->)]]].
  - cbn. auto.
  - cbn [fst]. apply submit_assessment_returns in Hs.
    destruct Hs as [[-> _] | [[-> _] | Hs]]; [cbn; auto | cbn; auto |].
    destruct Hs as (d & a & scores & name & goal & _ & _ & _ & _ & _ & Hs).
    destruct Hs as [(_ & -> & _) | (_ & sections & _ & Hs)]; [cbn; auto |].
    destruct Hs as [(_ & -> & _) | (_ & rd & pdf & _ & _ & Hs)]; [cbn; auto |].
    destruct Hs as [(_ & -> & _) | (drive & up & t_up & _ & _ & _ & Hs)];
      [cbn; auto |].
    destruct Hs as [(_ & ->) | (_ & url & fid & _ & _ & ->)]; cbn; auto.
  - destruct (is_json_decode_error e); cbn; auto.
Qed.

Ltac pass_validation Hpath Hbody Hd :=
  unfold do_POST; rewrite Hpath; fold submit_path; rewrite str_eqb_refl;
  cbn [negb]; unfold submit_assessment; rewrite Hbody;
  rewrite bind_lift;
  replace (truthy (PyDict _)) with true
    by (symmetry; match type of Hd with
                  | lookup _ ?d = _ => destruct d; [discriminate Hd|reflexivity]
                  end);
  cbn [negb];
  rewrite (contains_lookup _ _ Hd), (getitem_lookup _ _ Hd);
  rewrite bind_bind, bind_lift, bind_ret; cbn [negb];
  rewrite bind_lift; cbn [negb isinstance_dict]; rewrite bind_lift.

(** X13.  A collaborator that raises [JSONDecodeError] makes [do_POST]
    answer 400 "Invalid JSON data" although the request body was valid
    JSON: here the scorer, on a body that passed validation. *)
Theorem collaborator_json_error_is_400 (w : world) (req : request)
    (d a : list (str * pyval)) (e : exn) :
  path req = submit_path ->
  body req = inr (PyDict d) ->
  lookup (u "answers") d = Some (PyDict a) ->
  calculate_scores w (PyDict a) = inl e ->
  exn_class_of e = JSONDecodeError ->
  do_POST w req =
    (Response 400 json_content_type
       (Json (PyDict [(u "error", PyStr (u "Invalid JSON data"))])),
     [CalculateScores (PyDict a)]).
Proof.
  intros Hpath Hbody Hd Hscores Hclass.
  pass_validation Hpath Hbody Hd.
  rewrite Hscores. cbn [bind call]. unfold is_json_decode_error.
  now rewrite Hclass.
Qed.

Lemma collaborator_json_error_is_400_witness :
  do_POST scorer_json_error_world (post anonymous_submission) =
    (Response 400 json_content_type
       (Json (PyDict [(u "error", PyStr (u "Invalid JSON data"))])),
     [CalculateScores (PyDict doctor_answers)]).
Proof.
  apply (@collaborator_json_error_is_400 scorer_json_error_world
           (post anonymous_submission)
           [(u "answers", PyDict doctor_answers)] doctor_answers
           bad_gateway_json); reflexivity.
Defined.

(** X14.  A studentName that is present and not a string (a number,
    null, a list) makes the request fail with 500 and the text of the
    AttributeError, after the scoring has run. *)
Theorem non_string_student_name_500 (w : world) (req : request)
    (d a : list (str * pyval)) (trait_scores name_field : pyval) :
  path req = submit_path ->
  body req = inr (PyDict d) ->
  lookup (u "answers") d = Some (PyDict a) ->
  calculate_scores w (PyDict a) = inr trait_scores ->
  lookup (u "studentName") d = Some name_field ->
  (forall s, name_field <> PyStr s) ->
  do_POST w req =
    (Response 500 json_content_type
       (Json (PyDict
          [(u "error",
            PyStr (u "Assessment processing failed: '" ++ type_name name_field
                   ++ u "' object has no attribute 'strip'"))])),
     [CalculateScores (PyDict a)]).
Proof.
  intros Hpath Hbody Hd Hscores Hname Hnot.
  pass_validation Hpath Hbody Hd.
  rewrite Hscores, bind_call'. cbn [get]. rewrite Hname, bind_lift.
  destruct name_field as [| | | |s| |];
    try reflexivity.
  now destruct (Hnot s).
Qed.

Lemma non_string_student_name_500_witness :
  do_POST demo_world (post (PyDict null_name_submission)) =
    (Response 500 json_content_type
       (Json (PyDict
          [(u "error",
            PyStr (u "Assessment processing failed: '" ++ type_name PyNone
                   ++ u "' object has no attribute 'strip'"))])),
     [CalculateScores (PyDict doctor_answers)]).
Proof.
  apply (@non_string_student_name_500 demo_world
           (post (PyDict null_name_submission)) null_name_submission
           doctor_answers (PyDict [(u "Openness", PyInt 7)]) PyNone).
  - reflexivity.
  - reflexivity.
  - reflexivity.
  - reflexivity.
  - reflexivity.
  - intros s H. discriminate H.
Defined.

(** X15.  A 200 from [do_POST] comes after exactly these calls, in this
    order: the scoring, the goal extraction, the narrative generation,
    the report assembly, the PDF rendering, the Drive set-up (credentials
    lookup, credentials, client), the folder lookup, the file creation
    and the permission. *)
Theorem submit_success_calls (w : world) (req : request) :
  status (fst (do_POST w req)) = 200%Z ->
  exists d a trait_scores student_name career_goal sections report_data
         pdf_content info credentials file,
    body req = inr (PyDict d)
    /\ lookup (u "answers") d = Some (PyDict a)
    /\ snd (do_POST w req) =
       [CalculateScores (PyDict a);
        ExtractCareerGoal (dict_values a);
        GenerateTopicReports
          (strip (context_of w trait_scores
                    (student_info_dict w d a student_name)))
          career_goal (PyStr student_name);
        BuildReportData (PyStr student_name) career_goal sections;
        GeneratePdfReport report_data;
        Getenv credentials_env;
        ServiceAccountCredentials info;
        DriveBuild credentials;
        Getenv folder_env;
        DriveFilesCreate
          (PyDict (file_metadata_of (pdf_filename_of student_name)
                                    (getenv w folder_env)))
          pdf_content;
        DrivePermissionsCreate (lookup_default (u "id") file PyNone)].
Proof.
  intros H200.
  destruct (do_POST_200 w req H200) as (_ & sent & t & Hs & Hpost).
  rewrite Hpost in *. cbn [fst snd] in *.
  apply submit_assessment_returns in Hs.
  destruct Hs as [[-> _] | [[-> _] | Hs]]; try discriminate H200.
  destruct Hs as (d & a & scores & name & goal & Hbody & Hd & _ & _ & _ & Hs).
  destruct Hs as [(_ & -> & _) | (_ & sections & _ & Hs)];
    [discriminate H200|].
  destruct Hs as [(_ & -> & _) | (_ & rd & pdf & _ & _ & Hs)];
    [discriminate H200|].
  destruct Hs as [(_ & -> & _) | (drive & up & t_up & Hsetup & Hup & -> & Hs)];
    [discriminate H200|].
  destruct Hs as [(_ & ->) | (Htruthy & _)]; [discriminate H200|].
  destruct (setup_google_drive w) as [drive' t_setup] eqn:Hsetup'.
  cbn [fst snd] in *. subst drive'.
  destruct (@setup_google_drive_inv w drive t_setup Hsetup')
    as (text & info & credentials & _ & _ & _ & _ & _ & ->).
  destruct (@upload_to_drive_inv w drive pdf (pdf_filename_of name)
              (getenv w folder_env) up t_up Hup Htruthy)
    as (file & _ & _ & _ & ->).
  exists d, a, scores, name, goal, sections, rd, pdf, info, credentials, file.
  repeat split; assumption || reflexivity.
Qed.

Lemma submit_success_calls_witness :
  exists d a trait_scores student_name career_goal sections report_data
         pdf_content info credentials file,
    body (post asha_submission) = inr (PyDict d)
    /\ lookup (u "answers") d = Some (PyDict a)
    /\ snd (do_POST demo_world (post asha_submission)) =
       [CalculateScores (PyDict a);
        ExtractCareerGoal (dict_values a);
        GenerateTopicReports
          (strip (context_of demo_world trait_scores
                    (student_info_dict demo_world d a student_name)))
          career_goal (PyStr student_name);
        BuildReportData (PyStr student_name) career_goal sections;
        GeneratePdfReport report_data;
        Getenv credentials_env;
        ServiceAccountCredentials info;
        DriveBuild credentials;
        Getenv folder_env;
        DriveFilesCreate
          (PyDict (file_metadata_of (pdf_filename_of student_name)
                                    (getenv demo_world folder_env)))
          pdf_content;
        DrivePermissionsCreate (lookup_default (u "id") file PyNone)].
Proof.
  apply (@submit_success_calls demo_world (post asha_submission)).
  vm_compute. reflexivity.
Defined.

(** X16.  The 500 "Failed to generate report sections" is sent only
    when the narrative generator returned a falsy value: the calls made
    are then the scoring, the extraction and the generation, and nothing
    is assembled, rendered or uploaded. *)
Theorem empty_sections_500 (w : world) (req : request) :
  fst (do_POST w req) = send_error 500 (u "Failed to generate report sections") ->
  exists d a trait_scores student_name career_goal sections,
    body req = inr (PyDict d)
    /\ lookup (u "answers") d = Some (PyDict a)
    /\ generate_topic_reports w
         (strip (context_of w trait_scores (student_info_dict w d a student_name)))
         career_goal (PyStr student_name) = inr sections
    /\ truthy sections = false
    /\ snd (do_POST w req) =
       [CalculateScores (PyDict a);
        ExtractCareerGoal (dict_values a);
        GenerateTopicReports
          (strip (context_of w trait_scores
                    (student_info_dict w d a student_name)))
          career_goal (PyStr student_name)].
Proof.
  intros Hsent.
  destruct (do_POST_returns w req)
    as [[_ Hpost] | [_ [(sent & t & Hs & Hpost) | (e & t & _ & Hpost)]]];
    rewrite Hpost in *; cbn [fst snd] in *.
  - discriminate Hsent.
  - subst sent. apply submit_assessment_returns in Hs.
    destruct Hs as [[H _] | [[H _] | Hs]];
      try (exfalso; vm_compute in H; discriminate H).
    destruct Hs as (d & a & scores & name & goal & Hbody & Hd & _ & _ & _ & Hs).
    destruct Hs as [(_ & H & _) | (_ & sections & Hsections & Hs)];
      [exfalso; vm_compute in H; discriminate H|].
    destruct Hs as [(Hfalsy & _ & ->) | (_ & rd & pdf & _ & _ & Hs)].
    + exists d, a, scores, name, goal, sections. now repeat split.
    + exfalso.
      destruct Hs as [(_ & H & _) | (drive & up & t_up & _ & _ & _ & Hs)];
        [vm_compute in H; discriminate H|].
      destruct Hs as [(_ & H) | (_ & url & fid & _ & _ & H)];
        vm_compute in H; discriminate H.
  - exfalso. destruct (is_json_decode_error e); vm_compute in Hsent;
      discriminate Hsent.
Qed.

Lemma empty_sections_500_witness :
  exists d a trait_scores student_name career_goal sections,
    body (post asha_submission) = inr (PyDict d)
    /\ lookup (u "answers") d = Some (PyDict a)
    /\ generate_topic_reports no_sections_world
         (strip (context_of no_sections_world trait_scores
                   (student_info_dict no_sections_world d a student_name)))
         career_goal (PyStr student_name) = inr sections
    /\ truthy sections = false
    /\ snd (do_POST no_sections_world (post asha_submission)) =
       [CalculateScores (PyDict a);
        ExtractCareerGoal (dict_values a);
        GenerateTopicReports
          (strip (context_of no_sections_world trait_scores
                    (student_info_dict no_sections_world d a student_name)))
          career_goal (PyStr student_name)].
Proof.
  apply (@empty_sections_500 no_sections_world (post asha_submission)).
  vm_compute. reflexivity.
Defined.

(** X17.  The 500 "Failed to initialize Google Drive API" is sent only
    after the whole report has been produced: the scoring, extraction,
    generation, assembly and PDF rendering have all been called before
    the Drive set-up fails, and nothing is uploaded. *)
Theorem drive_failure_after_rendering (w : world) (req : request) :
  fst (do_POST w req) = send_error 500 (u "Failed to initialize Google Drive API") ->
  exists d a trait_scores student_name career_goal sections report_data
         pdf_content,
    body req = inr (PyDict d)
    /\ lookup (u "answers") d = Some (PyDict a)
    /\ generate_pdf_report w report_data = inr pdf_content
    /\ fst (setup_google_drive w) = None
    /\ snd (do_POST w req) =
       [CalculateScores (PyDict a);
        ExtractCareerGoal (dict_values a);
        GenerateTopicReports
          (strip (context_of w trait_scores
                    (student_info_dict w d a student_name)))
          career_goal (PyStr student_name);
        BuildReportData (PyStr student_name) career_goal sections;
        GeneratePdfReport report_data]
       ++ snd (setup_google_drive w).
Proof.
  intros Hsent.
  destruct (do_POST_returns w req)
    as [[_ Hpost] | [_ [(sent & t & Hs & Hpost) | (e & t & _ & Hpost)]]];
    rewrite Hpost in *; cbn [fst snd] in *.
  - discriminate Hsent.
  - subst sent. apply submit_assessment_returns in Hs.
    destruct Hs as [[H _] | [[H _] | Hs]];
      try (exfalso; vm_compute in H; discriminate H).
    destruct Hs as (d & a & scores & name & goal & Hbody & Hd & _ & _ & _ & Hs).
    destruct Hs as [(_ & H & _) | (_ & sections & _ & Hs)];
      [exfalso; vm_compute in H; discriminate H|].
    destruct Hs as [(_ & H & _) | (_ & rd & pdf & _ & Hpdf & Hs)];
      [exfalso; vm_compute in H; discriminate H|].
    destruct Hs as [(Hnone & _ & ->) | (drive & up & t_up & _ & _ & _ & Hs)].
    + exists d, a, scores, name, goal, sections, rd, pdf. now repeat split.
    + exfalso. destruct Hs as [(_ & H) | (_ & url & fid & _ & _ & H)];
        vm_compute in H; discriminate H.
  - exfalso. destruct (is_json_decode_error e); vm_compute in Hsent;
      discriminate Hsent.
Qed.

Lemma drive_failure_after_rendering_witness :
  exists d a trait_scores student_name career_goal sections report_data
         pdf_content,
    body (post asha_submission) = inr (PyDict d)
    /\ lookup (u "answers") d = Some (PyDict a)
    /\ generate_pdf_report unconfigured_world report_data = inr pdf_content
    /\ fst (setup_google_drive unconfigured_world) = None
    /\ snd (do_POST unconfigured_world (post asha_submission)) =
       [CalculateScores (PyDict a);
        ExtractCareerGoal (dict_values a);
        GenerateTopicReports
          (strip (context_of unconfigured_world trait_scores
                    (student_info_dict unconfigured_world d a student_name)))
          career_goal (PyStr student_name);
        BuildReportData (PyStr student_name) career_goal sections;
        GeneratePdfReport report_data]
       ++ snd (setup_google_drive unconfigured_world).
Proof.
  apply (@drive_failure_after_rendering unconfigured_world (post asha_submission)).
  vm_compute. reflexivity.
Defined.

Ltac inv_raise H a Ha :=
  let t1 := fresh "t" in let t2 := fresh "t" in let Ht := fresh "Ht" in
  apply bind_raises in H;
  destruct H as [H | (a & t1 & t2 & Ha & H & Ht)].

(** An exception leaves the [try] block of [do_POST] before any call, or
    after the scoring of the answers was called. *)
Lemma submit_assessment_raises (w : world) (req : request) (e : exn)
    (t : trace) :
  submit_assessment w req = (inl e, t) ->
  t = []
  \/ exists d a rest,
       body req = inr (PyDict d)
       /\ lookup (u "answers") d = Some (PyDict a)
       /\ t = CalculateScores (PyDict a) :: rest.
Proof.
  intros Hs. unfold submit_assessment in Hs.
  inv_raise Hs data Hdata.
  { left. unfold lift in Hs. now inversion Hs. }
  inv_lift Hdata.
  apply bind_raises in Hs.
  destruct Hs as [Hs | (missing & tm & trest & Hmissing & Hs & Htm)].
  { left. subst. destruct (truthy data); cbn [negb] in Hs.
    - inv_raise Hs present Hpresent.
      + unfold lift in Hs. now inversion Hs.
      + discriminate Hs.
    - discriminate Hs. }
  assert (Hquiet : tm = []).
  { destruct (truthy data); cbn [negb] in Hmissing.
    - inv_bind Hmissing present Hpresent. inv_lift Hpresent.
      apply ret_returns in Hmissing. destruct Hmissing as [_ ->]. now subst.
    - apply ret_returns in Hmissing. now destruct Hmissing as [_ ->]. }
  clear Hmissing.
  destruct missing; [discriminate Hs|].
  inv_raise Hs answers Hanswers.
  { left. subst. unfold lift in Hs. now inversion Hs. }
  inv_lift Hanswers.
  destruct (isinstance_dict answers) eqn:Hisdict; cbn [negb] in Hs;
    [|discriminate Hs].
  destruct answers as [| | | | | |a]; try discriminate Hisdict.
  apply getitem_dict in Hanswers. destruct Hanswers as (d & -> & Hd).
  rewrite (getitem_lookup _ _ Hd), bind_lift in Hs.
  right. exists d, a. subst. cbn [app].
  destruct (calculate_scores w (PyDict a)) as [e0|trait_scores].
  - cbn in Hs. inversion Hs; subst. now exists [].
  - rewrite bind_call' in Hs. unfold after in Hs. inversion Hs; subst.
    eexists. repeat split; eauto.
Qed.

(** X18.  [do_POST] calls nothing outside the file unless the path is
    /api/submit-assessment and the body is an object whose "answers"
    is a mapping; its first call is then the scoring of that mapping. *)
Theorem calls_need_valid_answers (w : world) (req : request) :
  snd (do_POST w req) <> [] ->
  path req = submit_path
  /\ exists d a rest,
       body req = inr (PyDict d)
       /\ lookup (u "answers") d = Some (PyDict a)
       /\ snd (do_POST w req) = CalculateScores (PyDict a) :: rest.
Proof.
  intros Hcalls.
  destruct (do_POST_returns w req)
    as [[_ Hpost] | [Hpath [(sent & t & Hs & Hpost) | (e & t & Hs & Hpost)]]];
    rewrite Hpost in *; cbn [fst snd] in *.
  - contradiction.
  - split; [assumption|].
    apply submit_assessment_returns in Hs.
    destruct Hs as [[_ ->] | [[_ ->] | Hs]]; try contradiction.
    destruct Hs as (d & a & scores & name & goal & Hbody & Hd & _ & _ & _ & Hs).
    exists d, a.
    destruct Hs as [(_ & _ & ->) | (_ & sections & _ & Hs)];
      [eexists; repeat split; eauto|].
    destruct Hs as [(_ & _ & ->) | (_ & rd & pdf & _ & _ & Hs)];
      [eexists; repeat split; eauto|].
    destruct Hs as [(_ & _ & ->) | (drive & up & t_up & _ & _ & -> & _)];
      eexists; repeat split; eauto.
  - split; [assumption|].
    apply submit_assessment_raises in Hs.
    destruct Hs as [-> | Hs]; [contradiction|exact Hs].
Qed.

Lemma calls_need_valid_answers_witness :
  path (post blank_goal_submission) = submit_path
  /\ exists d a rest,
       body (post blank_goal_submission) = inr (PyDict d)
       /\ lookup (u "answers") d = Some (PyDict a)
       /\ snd (do_POST demo_world (post blank_goal_submission))
          = CalculateScores (PyDict a) :: rest.
Proof.
  apply (@calls_need_valid_answers demo_world (post blank_goal_submission)).
  vm_compute. discriminate.
Defined.

(* ------------------------------------------------------------------ *)
(** * Names and paths *)

(** X19.  The PDF file name never holds a space, whatever the student
    name, and is the name's length plus the 18 characters of
    "_Career_Report.pdf". *)
Theorem pdf_filename_has_no_space (student_name : str) :
  ~ In 32%N (pdf_filename_of student_name)
  /\ List.length (pdf_filename_of student_name)
     = (List.length student_name + 18)%nat.
Proof.
  unfold pdf_filename_of, replace_char. split.
  - intros H. apply in_app_or in H. destruct H as [H|H].
    + apply in_map_iff in H. destruct H as (c & Hc & _).
      destruct (N.eqb c 32) eqn:E; [discriminate Hc|].
      apply N.eqb_neq in E. contradiction.
    + cbn in H. intuition discriminate.
  - rewrite List.length_app, List.length_map. reflexivity.
Qed.

Lemma lstrip_unpadded (c : N) (s : str) :
  isspace c = false -> lstrip (c :: s) = c :: s.
Proof. intros H. cbn. now rewrite H. Qed.

Lemma rstrip_unpadded (s : str) (c : N) :
  isspace c = false -> rstrip (s ++ [c]) = s ++ [c].
Proof.
  intros H. unfold rstrip. rewrite rev_app_distr. cbn [rev app].
  rewrite lstrip_unpadded by assumption.
  cbn [rev]. now rewrite rev_involutive.
Qed.

Lemma strip_unpadded (s : str) : padded s = false -> strip s = s.
Proof.
  destruct s as [|c s]; [reflexivity|].
  unfold padded. intros H. apply orb_false_iff in H. destruct H as [Hc Hlast].
  unfold strip. rewrite lstrip_unpadded by assumption.
  rewrite (@app_removelast_last N (c :: s) c) by discriminate.
  now apply rstrip_unpadded.
Qed.

(** [strip] is idempotent: stripping a stripped name changes nothing. *)
Lemma strip_idempotent (s : str) : strip (strip s) = strip s.
Proof.
  destruct (strip_spec s) as (lead & trail & _ & _ & _ & Hpad).
  now apply strip_unpadded.
Qed.

Lemma first_line_spec (name tail : str) :
  ~ In 10%N name ->
  tail = [] \/ (exists tail', tail = 10%N :: tail') ->
  first_line (name ++ tail) = name.
Proof.
  intros Hname Htail. induction name as [|c name IH]; cbn.
  - destruct Htail as [-> | [tail' ->]]; reflexivity.
  - destruct (N.eqb c 10) eqn:E.
    + apply N.eqb_eq in E. subst c. exfalso. apply Hname. now left.
    + f_equal. apply IH. intros H. apply Hname. now right.
Qed.

Lemma first_line_split (rest : str) :
  exists tail,
    rest = first_line rest ++ tail
    /\ ~ In 10%N (first_line rest)
    /\ (tail = [] \/ exists tail', tail = 10%N :: tail').
Proof.
  induction rest as [|c rest (tail & Hrest & Hname & Htail)]; cbn.
  - exists []. repeat split; auto.
  - destruct (N.eqb c 10) eqn:E.
    + apply N.eqb_eq in E. subst c. exists (10%N :: rest).
      repeat split; eauto.
    + apply N.eqb_neq in E. exists tail. repeat split; auto.
      * cbn. now rewrite <- Hrest.
      * intros [H|H]; [now apply E|now apply Hname].
Qed.

Lemma re_match_literal_inv (p : str) (q : list re_node) (s : str)
    (groups : list str) :
  re_match (map ReChar p ++ q) s = Some groups -> exists rest, s = p ++ rest.
Proof.
  revert s. induction p as [|c p IH]; intros s H.
  - now exists s.
  - destruct s as [|c' s]; cbn in H; [discriminate H|].
    destruct (N.eqb c c') eqn:E; [|discriminate H].
    apply N.eqb_eq in E. subst c'.
    destruct (IH s H) as [rest ->]. now exists rest.
Qed.

(** X20.  The pattern of line 263 matches a path exactly when the path
    begins with /api/download-report/; the captured file name is what
    follows the prefix up to the first newline, so it never holds a
    newline and is the whole remainder when the path has none. *)
Theorem download_pattern_match_iff (s : str) (groups : list str) :
  re_match download_pattern s = Some groups <->
  exists name tail,
    s = download_prefix ++ name ++ tail
    /\ groups = [name]
    /\ ~ In 10%N name
    /\ (tail = [] \/ exists tail', tail = 10%N :: tail').
Proof.
  split.
  - intros H. pose proof H as H'. unfold download_pattern in H'.
    apply re_match_literal_inv in H'. destruct H' as [rest ->].
    rewrite download_pattern_matches in H. inversion H; subst groups.
    destruct (first_line_split rest) as (tail & Hrest & Hname & Htail).
    exists (first_line rest), tail. rewrite <- Hrest. now repeat split.
  - intros (name & tail & -> & -> & Hname & Htail).
    rewrite download_pattern_matches. now rewrite first_line_spec.
Qed.

Lemma strip_method_inv (v : pyval) (name : str) :
  strip_method v = inr name -> exists s, v = PyStr s /\ name = strip s.
Proof.
  destruct v as [| | | |s| |]; try discriminate.
  intros H; inversion H. now exists s.
Qed.

(** X21.  The student_name of a 200 response is a fixed point of the
    handler: submitted again as studentName, it comes back unchanged
    and with the same file_name. *)
Theorem student_name_round_trip (w1 w2 : world) (req1 req2 : request)
    (d2 : list (str * pyval)) (name : str) :
  status (fst (do_POST w1 req1)) = 200%Z ->
  field (fst (do_POST w1 req1)) (u "student_name") = Some (PyStr name) ->
  body req2 = inr (PyDict d2) ->
  lookup (u "studentName") d2 = Some (PyStr name) ->
  status (fst (do_POST w2 req2)) = 200%Z ->
  field (fst (do_POST w2 req2)) (u "student_name") = Some (PyStr name)
  /\ field (fst (do_POST w2 req2)) (u "file_name")
     = field (fst (do_POST w1 req1)) (u "file_name").
Proof.
  intros H1 Hname Hbody2 Hd2 H2.
  destruct (do_POST_200 w1 req1 H1) as (_ & sent1 & t1 & Hs1 & Hpost1).
  destruct (do_POST_200 w2 req2 H2) as (_ & sent2 & t2 & Hs2 & Hpost2).
  rewrite Hpost1, Hpost2 in *. cbn [fst] in *.
  destruct (@submit_success_inv w1 req1 sent1 t1 Hs1 H1)
    as (d1 & a1 & name1 & goal1 & drive1 & pdf1 & up1 & tu1 & url1 & fid1
        & _ & _ & Hstrip1 & _ & _ & _ & _ & _ & ->).
  destruct (@submit_success_inv w2 req2 sent2 t2 Hs2 H2)
    as (d2' & a2 & name2 & goal2 & drive2 & pdf2 & up2 & tu2 & url2 & fid2
        & Hbody2' & _ & Hstrip2 & _ & _ & _ & _ & _ & ->).
  rewrite Hbody2 in Hbody2'. inversion Hbody2'; subst d2'.
  cbn in Hname. inversion Hname; subst name1.
  apply strip_method_inv in Hstrip1. destruct Hstrip1 as (s & _ & ->).
  rewrite Hd2 in Hstrip2. cbn in Hstrip2. rewrite strip_idempotent in Hstrip2.
  inversion Hstrip2; subst name2. split; reflexivity.
Qed.

Lemma student_name_round_trip_witness :
  field (fst (do_POST demo_world (post (PyDict clean_name_submission))))
        (u "student_name") = Some (PyStr (u "Asha Rao"))
  /\ field (fst (do_POST demo_world (post (PyDict clean_name_submission))))
           (u "file_name")
     = field (fst (do_POST demo_world (post (PyDict padded_name_submission))))
             (u "file_name").
Proof.
  apply (@student_name_round_trip demo_world demo_world
           (post (PyDict padded_name_submission))
           (post (PyDict clean_name_submission))
           clean_name_submission (u "Asha Rao")).
  - vm_compute. reflexivity.
  - vm_compute. reflexivity.
  - reflexivity.
  - reflexivity.
  - vm_compute. reflexivity.
Defined.
